(** * catcher.c (sh-interrupt): a raw-mode terminal reader with signal handlers

    A shallow embedding of [src/sh-interrupt/catcher.c].  The program's
    globals and the part of the operating system it talks to are an explicit
    state; every libc call the program makes is recorded, in order, in the
    list of calls a computation returns.  [exit] ends the computation.

    Scope of the model: one thread of control; a signal is delivered only
    while the program is blocked in [read] (the input script says when), so
    a handler never runs nested inside another handler or inside [main]'s
    other calls.  The program installs its handlers with an empty mask, so
    on a real system a signal can interrupt the handler of a different one
    (SIGHUP that of SIGTERM, say, and [cleanup] then runs twice): a
    statement whose truth would depend on that is restricted to scripts in
    which it cannot happen. *)

From Stdlib Require Import ZArith Ascii String.
From stdpp Require Import base gmap list strings pretty.

Local Open Scope Z_scope.

(** ** Constants of the system headers

    [<termios.h>], [<fcntl.h>] and [<errno.h>] are not part of the
    repository: their constants are parameters of the development, and so is
    the signedness of plain [char]. *)

Class Platform := {
  ICANON : Z;
  ECHO : Z;
  VQUIT : nat;
  NCCS : nat;
  TCSANOW : Z;
  O_RDONLY : Z;
  EINTR : Z;
  char_is_signed : bool
}.

(** The values of Linux on x86-64 with glibc. *)
Definition linux : Platform := {|
  ICANON := 2;
  ECHO := 8;
  VQUIT := 1;
  NCCS := 32;
  TCSANOW := 0;
  O_RDONLY := 0;
  EINTR := 4;
  char_is_signed := true
|}.

(** The four signals the program handles, with their POSIX numbers (the
    program's own messages spell out 2 and 3). *)
Inductive signal := SIGHUP | SIGINT | SIGQUIT | SIGTERM.

Definition signo (sig : signal) : Z :=
  match sig with
  | SIGHUP => 1
  | SIGINT => 2
  | SIGQUIT => 3
  | SIGTERM => 15
  end.

(** ** Data *)

(** [struct termios]: the members POSIX requires.  [tcflag_t] is a 32-bit
    unsigned integer, [cc_t] an unsigned char, [c_cc] has [NCCS] entries. *)
Record termios := {
  c_iflag : Z;
  c_oflag : Z;
  c_cflag : Z;
  c_lflag : Z;
  c_cc : list Z
}.

Definition set_c_lflag (v : Z) (t : termios) : termios :=
  {| c_iflag := c_iflag t; c_oflag := c_oflag t; c_cflag := c_cflag t;
     c_lflag := v; c_cc := c_cc t |}.

Definition set_c_cc (v : list Z) (t : termios) : termios :=
  {| c_iflag := c_iflag t; c_oflag := c_oflag t; c_cflag := c_cflag t;
     c_lflag := c_lflag t; c_cc := v |}.

(** Conversion of an [int] to [tcflag_t]: reduction modulo 2^32. *)
Definition to_tcflag (z : Z) : Z := z mod 2 ^ 32.

(** [x & ~mask] on [tcflag_t]: [~mask] is computed on [int] and converted. *)
Definition tcflag_clear (x mask : Z) : Z := Z.land x (to_tcflag (Z.lnot mask)).

(** The code of a character constant. *)
Definition chr (a : ascii) : Z := Z.of_N (N_of_ascii a).

(** [#define CTRL(x) (x&037)]; octal 037 is 31. *)
Definition CTRL (x : Z) : Z := Z.land x 31.

(** [#define CEOF CTRL('d')] *)
Definition CEOF : Z := CTRL (chr "d").

(** The three functions a signal can be bound to. *)
Inductive sighandler := h_handler2 | h_handler3 | h_exit_handler.

(** What [read(fd, c, 1)] can return: -1 with [errno] set, 0, or 1 with the
    byte stored in [c[0]]. *)
Inductive read_result :=
| rd_error (e : Z)
| rd_eof
| rd_byte (b : Z).

(** What happens while the program is blocked in [read]: a signal arrives,
    or the call returns. *)
Inductive tty_event :=
| Deliver (sig : signal)
| Data (r : read_result).

(** The libc calls of the program, with their arguments and results. *)
Inductive call :=
| c_open (path : string) (flags ret : Z)
| c_tcgetpgrp (fd ret : Z)
| c_tcsetpgrp (fd pgrp ret : Z)
| c_tcgetattr (fd ret : Z)
| c_tcsetattr (fd action : Z) (t : termios) (ret : Z)
| c_close (fd ret : Z)
| c_read (fd : Z) (r : read_result)
| c_write (fd : Z) (buf : string)
| c_printf (out : string)
| c_perror (msg : string)
| c_sigaction (sig : Z) (h : sighandler)
| c_exit (status : Z).

(** The operating system as the program sees it: the open descriptors, the
    attributes of the controlling terminal, the signal dispositions, and the
    answers the environment gives to the calls that can fail ([answers n] is
    the answer to the [n]-th such call, [clock] counts them). *)
Record world := {
  fds : gset Z;
  tty : termios;
  sigtab : gmap Z sighandler;
  answers : nat → Z;
  clock : nat
}.

(** The program's globals, [errno], and [c[0]] of [main]'s buffer. *)
Record state := {
  ttystate : termios;
  oldttystate : termios;
  cleanupP : Z;
  _global_fd : Z;
  errno : Z;
  c0 : Z;
  os : world
}.

Definition set_ttystate (v : termios) (s : state) : state :=
  {| ttystate := v; oldttystate := oldttystate s; cleanupP := cleanupP s;
     _global_fd := _global_fd s; errno := errno s; c0 := c0 s; os := os s |}.

Definition set_oldttystate (v : termios) (s : state) : state :=
  {| ttystate := ttystate s; oldttystate := v; cleanupP := cleanupP s;
     _global_fd := _global_fd s; errno := errno s; c0 := c0 s; os := os s |}.

Definition set_cleanupP (v : Z) (s : state) : state :=
  {| ttystate := ttystate s; oldttystate := oldttystate s; cleanupP := v;
     _global_fd := _global_fd s; errno := errno s; c0 := c0 s; os := os s |}.

Definition set__global_fd (v : Z) (s : state) : state :=
  {| ttystate := ttystate s; oldttystate := oldttystate s;
     cleanupP := cleanupP s; _global_fd := v; errno := errno s; c0 := c0 s;
     os := os s |}.

Definition set_errno (v : Z) (s : state) : state :=
  {| ttystate := ttystate s; oldttystate := oldttystate s;
     cleanupP := cleanupP s; _global_fd := _global_fd s; errno := v;
     c0 := c0 s; os := os s |}.

Definition set_c0 (v : Z) (s : state) : state :=
  {| ttystate := ttystate s; oldttystate := oldttystate s;
     cleanupP := cleanupP s; _global_fd := _global_fd s; errno := errno s;
     c0 := v; os := os s |}.

Definition set_os (v : world) (s : state) : state :=
  {| ttystate := ttystate s; oldttystate := oldttystate s;
     cleanupP := cleanupP s; _global_fd := _global_fd s; errno := errno s;
     c0 := c0 s; os := v |}.

Definition set_fds (v : gset Z) (w : world) : world :=
  {| fds := v; tty := tty w; sigtab := sigtab w; answers := answers w;
     clock := clock w |}.

Definition set_tty (v : termios) (w : world) : world :=
  {| fds := fds w; tty := v; sigtab := sigtab w; answers := answers w;
     clock := clock w |}.

Definition set_sigtab (v : gmap Z sighandler) (w : world) : world :=
  {| fds := fds w; tty := tty w; sigtab := v; answers := answers w;
     clock := clock w |}.

Definition tick (w : world) : world :=
  {| fds := fds w; tty := tty w; sigtab := sigtab w; answers := answers w;
     clock := S (clock w) |}.

(** ** Computations

    A computation runs from a state, makes calls, and either returns a value
    or stops: [exit] was called, an unhandled signal killed the process, or
    the input script ran out while [read] was blocking. *)

Inductive ending :=
| Exit (status : Z)
| Kill (sig : Z)
| Block.

Inductive outcome (A : Type) :=
| Ret (a : A) (s : state)
| Stop (e : ending) (s : state).

Arguments Ret {A} a s.
Arguments Stop {A} e s.

Definition M (A : Type) : Type := state → list call * outcome A.

Definition final {A} (o : outcome A) : state :=
  match o with
  | Ret _ s => s
  | Stop _ s => s
  end.

Definition ended {A} (o : outcome A) : option ending :=
  match o with
  | Ret _ _ => None
  | Stop e _ => Some e
  end.

#[global] Instance M_ret : MRet M := λ A a s, ([], Ret a s).

#[global] Instance M_bind : MBind M := λ A B k m s,
  match m s with
  | (ev, Ret a s') => let '(ev', o) := k a s' in (ev ++ ev', o)
  | (ev, Stop e s') => (ev, Stop e s')
  end.

Definition gets {A} (f : state → A) : M A := λ s, ([], Ret (f s) s).

Definition modify (f : state → state) : M unit := λ s, ([], Ret tt (f s)).

Definition when (b : bool) (m : M unit) : M unit := if b then m else mret tt.

(** A C integer used as a condition. *)
Definition truthy (z : Z) : bool := negb (z =? 0).

(** The calls made by a computation, and how it came out. *)
Definition calls {A} (m : M A) (s : state) : list call := (m s).1.

Definition out {A} (m : M A) (s : state) : outcome A := (m s).2.

(** ** The C library *)

Definition nl : string := String (ascii_of_nat 10) EmptyString.

(** [sizeof] of a string literal counts the terminating NUL. *)
Definition sizeof (lit : string) : Z := Z.of_nat (String.length lit) + 1.

(** What the environment answers to a call on descriptor [fd]: a descriptor
    that is not open fails. *)
Definition fd_answer (fd : Z) (w : world) : Z :=
  if decide (fd ∈ fds w) then answers w (clock w) else -1.

(** 0 on success, -1 on failure. *)
Definition status_of (a : Z) : Z := if a <? 0 then -1 else 0.

(** The value on success, -1 on failure. *)
Definition value_of (a : Z) : Z := if a <? 0 then -1 else a.

Definition open (path : string) (flags : Z) : M Z := λ s,
  let w := os s in
  let r := value_of (answers w (clock w)) in
  let w' := if r <? 0 then w else set_fds ({[r]} ∪ fds w) w in
  ([c_open path flags r], Ret r (set_os (tick w') s)).

Definition tcgetpgrp (fd : Z) : M Z := λ s,
  let r := value_of (fd_answer fd (os s)) in
  ([c_tcgetpgrp fd r], Ret r (set_os (tick (os s)) s)).

Definition tcsetpgrp (fd pgrp : Z) : M Z := λ s,
  let r := status_of (fd_answer fd (os s)) in
  ([c_tcsetpgrp fd pgrp r], Ret r (set_os (tick (os s)) s)).

(** [tcgetattr(fd, p)]: [store] writes through [p]. *)
Definition tcgetattr (fd : Z) (store : termios → state → state) : M Z := λ s,
  let r := status_of (fd_answer fd (os s)) in
  let s' := if r <? 0 then s else store (tty (os s)) s in
  ([c_tcgetattr fd r], Ret r (set_os (tick (os s)) s')).

Definition tcsetattr (fd action : Z) (t : termios) : M Z := λ s,
  let r := status_of (fd_answer fd (os s)) in
  let w' := if r <? 0 then os s else set_tty t (os s) in
  ([c_tcsetattr fd action t r], Ret r (set_os (tick w') s)).

Definition close (fd : Z) : M Z := λ s,
  if decide (fd ∈ fds (os s))
  then ([c_close fd 0], Ret 0 (set_os (set_fds (fds (os s) ∖ {[fd]}) (os s)) s))
  else ([c_close fd (-1)], Ret (-1) s).

(** [write(fd, buf, count)] sends the first [count] bytes of [buf]. *)
Definition write (fd : Z) (buf : string) (count : Z) : M Z := λ s,
  ([c_write fd (String.substring 0 (Z.to_nat count) buf)], Ret count s).

Definition printf (output : string) : M unit := λ s,
  ([c_printf output], Ret tt s).

Definition perror (msg : string) : M unit := λ s,
  ([c_perror msg], Ret tt s).

Definition exit {A} (status : Z) : M A := λ s,
  ([c_exit status], Stop (Exit status) s).

(** [sigaction(sig, &siga, 0)] with an empty mask and no flags: in
    particular no SA_RESTART, so a handled signal makes a blocked [read]
    return -1 with [EINTR]. *)
Definition sigaction (sig : signal) (h : sighandler) : M unit := λ s,
  ([c_sigaction (signo sig) h],
   Ret tt (set_os (set_sigtab (<[signo sig := h]> (sigtab (os s))) (os s)) s)).

(** The value of a byte read into a [char]. *)
Definition to_char `{Platform} (b : Z) : Z :=
  let u := b mod 256 in
  if char_is_signed && (128 <=? u) then u - 256 else u.

(** [%c]: the argument converted to [unsigned char]. *)
Definition fmt_c (v : Z) : string :=
  String (ascii_of_N (Z.to_N (v mod 256))) EmptyString.

Definition hex_digit (d : Z) : ascii :=
  match d with
  | 0 => "0" | 1 => "1" | 2 => "2" | 3 => "3" | 4 => "4" | 5 => "5"
  | 6 => "6" | 7 => "7" | 8 => "8" | 9 => "9" | 10 => "A" | 11 => "B"
  | 12 => "C" | 13 => "D" | 14 => "E" | _ => "F"
  end%char.

Fixpoint hex_go (fuel : nat) (n : Z) (acc : string) : string :=
  match fuel with
  | O => acc
  | S k =>
      let acc' := String (hex_digit (n mod 16)) acc in
      if n / 16 =? 0 then acc' else hex_go k (n / 16) acc'
  end.

(** [%X]: the argument as a 32-bit [unsigned int], in upper-case
    hexadecimal (at most eight digits). *)
Definition fmt_X (v : Z) : string := hex_go 8 (v mod 2 ^ 32) EmptyString.

(** [%d] *)
Definition fmt_d (v : Z) : string := pretty v.

(** ** The program *)

Section Program.

Context `{Platform}.

(** [handler2], bound to SIGINT. *)
Definition handler2 (sig : Z) : M unit :=
  let TMP := "Async action on sigint (2)" +:+ nl in
  write 1 TMP (sizeof TMP - 1);;
  mret tt.

(** [handler3], bound to SIGQUIT. *)
Definition handler3 (sig : Z) : M unit :=
  let TMP := "Async action on sigquit (3)" +:+ nl in
  write 1 TMP (sizeof TMP - 1);;
  mret tt.

(** [cleanup]: restore the saved attributes if [cleanupP] is set; close
    [_global_fd] in every case.  No variable of the program is assigned. *)
Definition cleanup : M unit :=
  armed ← gets cleanupP;
  when (truthy armed) (
    printf ("Resettung terminal" +:+ nl);;
    fd ← gets _global_fd;
    old ← gets oldttystate;
    r ← tcsetattr fd TCSANOW old;
    when (r <? 0) (perror "ioctl reset /dev/tty"));;
  fd ← gets _global_fd;
  close fd;;
  mret tt.

(** [exit_handler]: declared [noreturn]; it can produce a value of any type
    because it never produces one. *)
Definition exit_handler {A} (sig : Z) : M A :=
  cleanup;;
  when (truthy sig) (printf ("Exiting on signal " +:+ fmt_d sig +:+ nl));;
  exit 0.

(** The body of [main] up to [cleanupP = 1]. *)
Definition startup : M unit :=
  fd ← open "/dev/tty" O_RDONLY;
  modify (set__global_fd fd);;
  when (fd <? 1) (perror "open /dev/tty";; exit_handler 0);;

  fd ← gets _global_fd;
  pgrp ← tcgetpgrp fd;
  when (pgrp <? 0) (perror ("Can't get pgrp" +:+ nl);; exit_handler 0);;

  fd ← gets _global_fd;
  r ← tcsetpgrp fd pgrp;
  when (r <? 0) (perror ("Can't set pgrp" +:+ nl);; exit_handler 0);;

  fd ← gets _global_fd;
  r ← tcgetattr fd set_oldttystate;
  when (r <? 0) (perror "ioctl1 /dev/tty";; exit_handler 0);;
  old ← gets oldttystate;
  modify (set_ttystate old);;
  modify (λ s, set_ttystate
    (set_c_lflag (tcflag_clear (c_lflag (ttystate s)) ICANON) (ttystate s)) s);;
  modify (λ s, set_ttystate
    (set_c_lflag (tcflag_clear (c_lflag (ttystate s)) ECHO) (ttystate s)) s);;
  modify (λ s, set_ttystate
    (set_c_cc (<[VQUIT := CTRL (chr "g")]> (c_cc (ttystate s))) (ttystate s)) s);;
  fd ← gets _global_fd;
  raw ← gets ttystate;
  r ← tcsetattr fd TCSANOW raw;
  when (r <? 0) (perror "ioctl2 /dev/tty";; exit_handler 0);;
  modify (set_cleanupP 1).

(** The [sigaction] block of [main]. *)
Definition install_handlers : M unit :=
  sigaction SIGINT h_handler2;;
  sigaction SIGQUIT h_handler3;;
  sigaction SIGHUP h_exit_handler;;
  sigaction SIGTERM h_exit_handler.

(** The kernel calls the function bound to the signal with its number. *)
Definition run_handler (h : sighandler) (sig : Z) : M unit :=
  match h with
  | h_handler2 => handler2 sig
  | h_handler3 => handler3 sig
  | h_exit_handler => exit_handler sig
  end.

(** Delivery of a signal: the bound function runs; a signal with no function
    bound takes its default action, which for these four ends the process. *)
Definition deliver (sig : signal) : M unit := λ s,
  match sigtab (os s) !! signo sig with
  | Some h => run_handler h (signo sig) s
  | None => ([], Stop (Kill (signo sig)) s)
  end.

Definition read_returns (fd : Z) (r : read_result) : M Z := λ s,
  match r with
  | rd_error e => ([c_read fd r], Ret (-1) (set_errno e s))
  | rd_eof => ([c_read fd r], Ret 0 s)
  | rd_byte b => ([c_read fd r], Ret 1 (set_c0 (to_char b) s))
  end.

(** [read(fd, c, 1)], blocking: either it returns, or a signal arrives, its
    handler runs to completion and, if the process is still there, the call
    returns -1 with [EINTR]. *)
Definition read (fd : Z) (ev : tty_event) : M Z :=
  match ev with
  | Data r => read_returns fd r
  | Deliver sig => deliver sig;; read_returns fd (rd_error EINTR)
  end.

(** One turn of the [while (1)] loop: the [switch] on what [read] returned.
    Returning means going round again. *)
Definition loop_body (ev : tty_event) : M unit :=
  fd ← gets _global_fd;
  n ← read fd ev;
  if n =? -1 then
    e ← gets errno;
    if e =? EINTR then mret tt
    else perror "stdin read";; exit_handler 0
  else if n =? 0 then
    printf ("Exiting on stdin EOF (should happen only in cannon mode" +:+ nl);;
    exit_handler 0
  else
    ch ← gets c0;
    when (ch =? CEOF) (
      printf ("Exiting on stdin EOF (hopefully only in noncannon mode)" +:+ nl);;
      exit_handler 0);;
    ch ← gets c0;
    printf ("You typed: '" +:+ fmt_c ch +:+ "' (0x" +:+ fmt_X ch +:+ ")" +:+ nl).

(** [while (1) { ... }] against a script of what happens at each [read];
    when the script is used up the process is blocked in [read]. *)
Fixpoint read_loop (input : list tty_event) : M unit :=
  match input with
  | [] => λ s, ([], Stop Block s)
  | ev :: rest => loop_body ev;; read_loop rest
  end.

Definition main (input : list tty_event) : M Z :=
  startup;;
  install_handlers;;
  printf ("Use C-c and C-g for async actions, end with C-d" +:+ nl);;
  read_loop input;;
  exit_handler 0.

End Program.

(** The state a process starts in: globals zeroed, [c] holding whatever the
    stack holds, every signal at its default disposition. *)
Definition zero_termios `{Platform} : termios :=
  {| c_iflag := 0; c_oflag := 0; c_cflag := 0; c_lflag := 0;
     c_cc := replicate NCCS 0 |}.

Definition boot `{Platform} (w : world) (junk : Z) : state :=
  {| ttystate := zero_termios; oldttystate := zero_termios; cleanupP := 0;
     _global_fd := 0; errno := 0; c0 := junk; os := set_sigtab ∅ w |}.

(** ** Reading calls *)

Definition is_tcsetattr (c : call) : bool :=
  match c with c_tcsetattr _ _ _ _ => true | _ => false end.

Definition is_close (c : call) : bool :=
  match c with c_close _ _ => true | _ => false end.

Definition is_exit (c : call) : bool :=
  match c with c_exit _ => true | _ => false end.

(** How many calls of a trace satisfy [p]. *)
Definition count (p : call → bool) (tr : list call) : nat :=
  length (List.filter p tr).

(** The functions POSIX lists as safe to call from a signal handler, among
    those the program uses: the system calls.  The stdio functions and
    [exit] (which flushes stdio and runs the [atexit] functions) are not. *)
Definition async_signal_safe (c : call) : bool :=
  match c with
  | c_printf _ | c_perror _ | c_exit _ => false
  | _ => true
  end.

(** Calls that neither change the terminal or the descriptors nor end the
    process. *)
Definition quiet (c : call) : bool :=
  match c with
  | c_read _ _ | c_write _ _ | c_printf _ | c_perror _ => true
  | _ => false
  end.

(** The session guard's part of the state: everything but [errno] and the
    read buffer. *)
Definition guard (s : state) : termios * termios * Z * Z * world :=
  (ttystate s, oldttystate s, cleanupP s, _global_fd s, os s).

(** ** Summaries of [cleanup], used to state what it does *)

Section Summaries.

Context `{Platform}.

(** The calls of the restoring branch of [cleanup]. *)
Definition restore_calls (s : state) : list call :=
  if truthy (cleanupP s) then
    let r := status_of (fd_answer (_global_fd s) (os s)) in
    [c_printf ("Resettung terminal" +:+ nl);
     c_tcsetattr (_global_fd s) TCSANOW (oldttystate s) r]
    ++ (if r <? 0 then [c_perror "ioctl reset /dev/tty"] else [])
  else [].

(** The world after the restoring branch of [cleanup]. *)
Definition restore_world (s : state) : world :=
  if truthy (cleanupP s) then
    if status_of (fd_answer (_global_fd s) (os s)) <? 0
    then tick (os s)
    else tick (set_tty (oldttystate s) (os s))
  else os s.

Definition close_world (fd : Z) (w : world) : world :=
  if decide (fd ∈ fds w) then set_fds (fds w ∖ {[fd]}) w else w.

Definition close_ret (fd : Z) (w : world) : Z :=
  if decide (fd ∈ fds w) then 0 else -1.

End Summaries.

(** What one turn of the read loop can be: quiet calls and round again;
    quiet calls and then [exit_handler]; or death by an unhandled signal.
    The guard's part of the state is the same throughout. *)
Inductive turn `{Platform} (s : state) : list call * outcome unit → Prop :=
| turn_again pre s' :
    Forall (λ c, quiet c = true) pre → guard s' = guard s →
    turn s (pre, Ret tt s')
| turn_exit pre sig s' :
    Forall (λ c, quiet c = true) pre → guard s' = guard s →
    turn s (pre ++ calls (exit_handler (A := unit) sig) s',
            out (exit_handler (A := unit) sig) s')
| turn_kill sig :
    sigtab (os s) !! signo sig = None →
    turn s ([], Stop (Kill (signo sig)) s).

(** ** A successful startup *)

(** The environment lets the five calls of the startup sequence succeed:
    [open] gives a descriptor that passes the program's test, the other four
    do not fail. *)
Definition env_ok (w : world) : Prop :=
  1 ≤ answers w (clock w) ∧
  0 ≤ answers w (1 + clock w)%nat ∧
  0 ≤ answers w (2 + clock w)%nat ∧
  0 ≤ answers w (3 + clock w)%nat ∧
  0 ≤ answers w (4 + clock w)%nat.

(** The attributes [main] computes in [ttystate] from the saved ones. *)
Definition raw_of `{Platform} (m : termios) : termios :=
  set_c_cc (<[VQUIT := CTRL (chr "g")]> (c_cc m))
    (set_c_lflag (tcflag_clear (tcflag_clear (c_lflag m) ICANON) ECHO) m).

(** The state in which a successful startup leaves the process. *)
Definition armed `{Platform} (w : world) (junk : Z) : state :=
  let fd := answers w (clock w) in
  {| ttystate := raw_of (tty w); oldttystate := tty w; cleanupP := 1;
     _global_fd := fd; errno := 0; c0 := junk;
     os := {| fds := {[fd]} ∪ fds w; tty := raw_of (tty w); sigtab := ∅;
              answers := answers w; clock := (5 + clock w)%nat |} |}.

(** The calls of a successful startup. *)
Definition startup_calls `{Platform} (w : world) : list call :=
  let fd := answers w (clock w) in
  let pgrp := answers w (1 + clock w)%nat in
  [c_open "/dev/tty" O_RDONLY fd;
   c_tcgetpgrp fd pgrp;
   c_tcsetpgrp fd pgrp 0;
   c_tcgetattr fd 0;
   c_tcsetattr fd TCSANOW (raw_of (tty w)) 0].

(** The signal table after the [sigaction] block. *)
Definition installed (t : gmap Z sighandler) : gmap Z sighandler :=
  <[signo SIGTERM := h_exit_handler]> (<[signo SIGHUP := h_exit_handler]>
    (<[signo SIGQUIT := h_handler3]> (<[signo SIGINT := h_handler2]> t))).

(** The state at the first [read]: startup done, handlers installed. *)
Definition ready `{Platform} (w : world) (junk : Z) : state :=
  set_os (set_sigtab (installed ∅) (os (armed w junk))) (armed w junk).

(** The calls between the startup sequence and the first [read]. *)
Definition install_calls : list call :=
  [c_sigaction (signo SIGINT) h_handler2;
   c_sigaction (signo SIGQUIT) h_handler3;
   c_sigaction (signo SIGHUP) h_exit_handler;
   c_sigaction (signo SIGTERM) h_exit_handler;
   c_printf ("Use C-c and C-g for async actions, end with C-d" +:+ nl)].

(** Two runs that make the same calls, end the same way, and leave the
    guard's part of the state the same. *)
Definition same_run {A B} (r1 : list call * outcome A) (r2 : list call * outcome B) : Prop :=
  r1.1 = r2.1 ∧ ended r1.2 = ended r2.2 ∧ guard (final r1.2) = guard (final r2.2).

(** The attributes and the result of the last [tcsetattr] of a trace. *)
Fixpoint last_tcsetattr (tr : list call) : option (termios * Z) :=
  match tr with
  | [] => None
  | c :: rest =>
      match last_tcsetattr rest with
      | Some x => Some x
      | None =>
          match c with
          | c_tcsetattr _ _ t r => Some (t, r)
          | _ => None
          end
      end
  end.

(** Every one of the four signals has a function bound to it. *)
Definition all_bound (w : world) : Prop :=
  ∀ sig, sigtab w !! signo sig ≠ None.

(** A computation that, if it does not return, ends in [exit(0)]. *)
Definition exits_zero {A} (m : M A) : Prop :=
  ∀ s, ended (out m s) = None ∨ ended (out m s) = Some (Exit 0).

(** ** Sample environments *)

(** The attributes of a Linux terminal in its usual cooked mode: in
    [c_lflag] ISIG, ICANON, ECHO, ECHOE, ECHOK, ECHOCTL, ECHOKE and IEXTEN;
    in [c_cc] VINTR = ^C, VQUIT = ^\, VERASE = DEL, VKILL = ^U, VEOF = ^D. *)
Definition cooked : termios :=
  {| c_iflag := 1280; c_oflag := 5; c_cflag := 191; c_lflag := 35387;
     c_cc := [3; 28; 127; 21; 4; 0; 1; 0; 17; 19; 26; 0; 18; 15; 23; 22;
              0; 0; 0; 0; 0; 0; 0; 0; 0; 0; 0; 0; 0; 0; 0; 0] |}.

(** Every call succeeds: [open] gives descriptor 3, the foreground process
    group is 4242. *)
Definition all_succeed (n : nat) : Z :=
  match n with
  | O => 3
  | 1%nat => 4242
  | _ => 0
  end.

(** There is no controlling terminal: [open] fails. *)
Definition no_terminal (n : nat) : Z := -1.

(** [open] gives descriptor 0, as it does when standard input is closed. *)
Definition lowest_is_zero (n : nat) : Z := 0.

(** A process with the three standard descriptors open. *)
Definition login_world (ans : nat → Z) : world :=
  {| fds := {[0; 1; 2]}; tty := cooked; sigtab := ∅; answers := ans;
     clock := 0 |}.

(** A process started with standard input closed. *)
Definition no_stdin_world (ans : nat → Z) : world :=
  {| fds := {[1; 2]}; tty := cooked; sigtab := ∅; answers := ans;
     clock := 0 |}.

(** ** More ways of reading calls and scripts *)

Definition is_read (c : call) : bool :=
  match c with c_read _ _ => true | _ => false end.

Definition is_sigaction (c : call) : bool :=
  match c with c_sigaction _ _ => true | _ => false end.

Definition is_perror (c : call) : bool :=
  match c with c_perror _ => true | _ => false end.

(** The events after which the loop goes round again when the handlers are
    bound as [main] binds them: SIGINT and SIGQUIT, an interrupted [read],
    and any byte but the end-of-input character. *)
Definition harmless `{Platform} (ev : tty_event) : bool :=
  match ev with
  | Deliver SIGINT | Deliver SIGQUIT => true
  | Deliver _ => false
  | Data (rd_error e) => e =? EINTR
  | Data rd_eof => false
  | Data (rd_byte b) => negb (to_char b =? CEOF)
  end.

(** The four signals are bound as the [sigaction] block binds them. *)
Definition bound_as_main (w : world) : Prop :=
  ∀ sig, sigtab w !! signo sig =
         Some match sig with
              | SIGINT => h_handler2
              | SIGQUIT => h_handler3
              | SIGHUP | SIGTERM => h_exit_handler
              end.

(** The two calls the loop makes for an ordinary byte. *)
Definition echo `{Platform} (fd b : Z) : list call :=
  [c_read fd (rd_byte b);
   c_printf ("You typed: '" +:+ fmt_c (to_char b) +:+ "' (0x"
             +:+ fmt_X (to_char b) +:+ ")" +:+ nl)].

(** The first [k] calls succeed as in [all_succeed], the later ones fail. *)
Definition fail_from (k n : nat) : Z :=
  if (n <? k)%nat then all_succeed n else -1.

(** ** Running computations *)

Lemma run_bind {A B} (m : M A) (k : A → M B) (s : state) :
  (m ≫= k) s =
  match m s with
  | (ev, Ret a s') => ((ev ++ (k a s').1), (k a s').2)
  | (ev, Stop e s') => (ev, Stop e s')
  end.
Proof.
  unfold mbind, M_bind. destruct (m s) as [ev [a s'|e s']]; [|done].
  by destruct (k a s').
Qed.

Lemma run_bind_ret {A B} (m : M A) (k : A → M B) s ev a s' :
  m s = (ev, Ret a s') → (m ≫= k) s = (ev ++ (k a s').1, (k a s').2).
Proof. intros E. by rewrite run_bind, E. Qed.

Lemma run_bind_stop {A B} (m : M A) (k : A → M B) s ev e s' :
  m s = (ev, Stop e s') → (m ≫= k) s = (ev, Stop e s').
Proof. intros E. by rewrite run_bind, E. Qed.

Lemma count_app p tr1 tr2 : count p (tr1 ++ tr2) = (count p tr1 + count p tr2)%nat.
Proof. unfold count. by rewrite List.filter_app, length_app. Qed.

Lemma count_quiet p tr :
  (∀ c, quiet c = true → p c = false) →
  Forall (λ c, quiet c = true) tr → count p tr = 0%nat.
Proof.
  intros Hp. unfold count. induction 1 as [|c tr Hc _ IH]; [done|].
  cbn. by rewrite (Hp c Hc).
Qed.

Section Proofs.

Context `{Platform}.

(** *** [cleanup] and [exit_handler] *)

Lemma set_os_os s : set_os (os s) s = s.
Proof. by destruct s. Qed.

Lemma cleanup_run s :
  cleanup s =
  (restore_calls s ++ [c_close (_global_fd s) (close_ret (_global_fd s) (restore_world s))],
   Ret tt (set_os (close_world (_global_fd s) (restore_world s)) s)).
Proof.
  unfold cleanup, restore_calls, restore_world, close_world, close_ret.
  unfold mbind, M_bind, gets, when, printf, tcsetattr, perror, close, mret, M_ret.
  cbn.
  destruct (truthy (cleanupP s)); cbn.
  - destruct (status_of (fd_answer (_global_fd s) (os s)) <? 0); cbn;
      case_decide; cbn; done.
  - case_decide; cbn; [done|]. by rewrite set_os_os.
Qed.

Lemma exit_handler_run {A} sig s :
  @exit_handler _ A sig s =
  (calls cleanup s
   ++ (if truthy sig then [c_printf ("Exiting on signal " +:+ fmt_d sig +:+ nl)] else [])
   ++ [c_exit 0],
   Stop (Exit 0) (final (out cleanup s))).
Proof.
  unfold exit_handler, calls, out. rewrite run_bind, cleanup_run. cbn [fst snd final].
  unfold when, printf, exit, mbind, M_bind, mret, M_ret.
  destruct (truthy sig); cbn; by rewrite <- ?app_assoc.
Qed.

End Proofs.

Section LoopProofs.

Context `{Platform}.

(** *** One turn of the loop, case by case *)

Lemma handler2_run sig s :
  handler2 sig s = ([c_write 1 ("Async action on sigint (2)" +:+ nl)], Ret tt s).
Proof. reflexivity. Qed.

Lemma handler3_run sig s :
  handler3 sig s = ([c_write 1 ("Async action on sigquit (3)" +:+ nl)], Ret tt s).
Proof. reflexivity. Qed.

Ltac step_loop_body :=
  unfold loop_body, read, read_returns, deliver, run_handler, handler2, handler3, write;
  unfold mbind, M_bind, gets, when, printf, perror, mret, M_ret; cbn.

Lemma loop_body_error e s :
  loop_body (Data (rd_error e)) s =
  if e =? EINTR
  then ([c_read (_global_fd s) (rd_error e)], Ret tt (set_errno e s))
  else ([c_read (_global_fd s) (rd_error e); c_perror "stdin read"]
          ++ calls (exit_handler (A := unit) 0) (set_errno e s),
        out (exit_handler (A := unit) 0) (set_errno e s)).
Proof.
  step_loop_body. unfold calls, out.
  destruct (e =? EINTR); [done|].
  by destruct (exit_handler 0 (set_errno e s)).
Qed.

Lemma loop_body_eof s :
  loop_body (Data rd_eof) s =
  ([c_read (_global_fd s) rd_eof;
    c_printf ("Exiting on stdin EOF (should happen only in cannon mode" +:+ nl)]
     ++ calls (exit_handler (A := unit) 0) s,
   out (exit_handler (A := unit) 0) s).
Proof.
  step_loop_body. unfold calls, out. by destruct (exit_handler 0 s).
Qed.

Lemma loop_body_byte b s :
  loop_body (Data (rd_byte b)) s =
  if to_char b =? CEOF
  then ([c_read (_global_fd s) (rd_byte b);
         c_printf ("Exiting on stdin EOF (hopefully only in noncannon mode)" +:+ nl)]
          ++ calls (exit_handler (A := unit) 0) (set_c0 (to_char b) s),
        out (exit_handler (A := unit) 0) (set_c0 (to_char b) s))
  else ([c_read (_global_fd s) (rd_byte b);
         c_printf ("You typed: '" +:+ fmt_c (to_char b) +:+ "' (0x"
                   +:+ fmt_X (to_char b) +:+ ")" +:+ nl)],
        Ret tt (set_c0 (to_char b) s)).
Proof.
  step_loop_body. unfold calls, out.
  destruct (to_char b =? CEOF); [|done].
  rewrite !exit_handler_run. cbn. done.
Qed.

Lemma loop_body_deliver sig s :
  loop_body (Deliver sig) s =
  match sigtab (os s) !! signo sig with
  | None => ([], Stop (Kill (signo sig)) s)
  | Some h_handler2 =>
      ([c_write 1 ("Async action on sigint (2)" +:+ nl);
        c_read (_global_fd s) (rd_error EINTR)], Ret tt (set_errno EINTR s))
  | Some h_handler3 =>
      ([c_write 1 ("Async action on sigquit (3)" +:+ nl);
        c_read (_global_fd s) (rd_error EINTR)], Ret tt (set_errno EINTR s))
  | Some h_exit_handler =>
      (calls (exit_handler (A := unit) (signo sig)) s,
       out (exit_handler (A := unit) (signo sig)) s)
  end.
Proof.
  step_loop_body. unfold calls, out.
  destruct (sigtab (os s) !! signo sig) as [[]|]; cbn; try done.
  - by rewrite Z.eqb_refl.
  - by rewrite Z.eqb_refl.
  - rewrite exit_handler_run. cbn. unfold calls, out. done.
Qed.

Lemma loop_body_turn ev s : turn s (loop_body ev s).
Proof.
  destruct ev as [sig|[e| |b]].
  - rewrite loop_body_deliver.
    destruct (sigtab (os s) !! signo sig) as [[]|] eqn:E.
    + apply turn_again; [repeat constructor|done].
    + apply turn_again; [repeat constructor|done].
    + apply (turn_exit s [] (signo sig) s); [constructor|done].
    + by apply turn_kill.
  - rewrite loop_body_error. destruct (e =? EINTR).
    + apply turn_again; [repeat constructor|done].
    + apply (turn_exit s [_; _] 0 (set_errno e s)); [repeat constructor|done].
  - rewrite loop_body_eof.
    apply (turn_exit s [_; _] 0 s); [repeat constructor|done].
  - rewrite loop_body_byte. destruct (to_char b =? CEOF).
    + apply (turn_exit s [_; _] 0 (set_c0 (to_char b) s)); [repeat constructor|done].
    + apply turn_again; [repeat constructor|done].
Qed.

End LoopProofs.

Section StartupProofs.

Context `{Platform}.

Lemma value_of_nonneg a : 0 ≤ a → value_of a = a.
Proof. unfold value_of. intros. destruct (Z.ltb_spec a 0); [lia|done]. Qed.

Lemma status_of_nonneg a : 0 ≤ a → status_of a = 0.
Proof. unfold status_of. intros. destruct (Z.ltb_spec a 0); [lia|done]. Qed.

Lemma fd_answer_open fd w : fd ∈ fds w → fd_answer fd w = answers w (clock w).
Proof. intros. unfold fd_answer. by rewrite decide_True. Qed.

Lemma startup_run_ok w junk :
  env_ok w → startup (boot w junk) = (startup_calls w, Ret tt (armed w junk)).
Proof.
  intros (H0 & H1 & H2 & H3 & H4). cbn in H1, H2, H3, H4.
  assert (Hin : answers w (clock w) ∈ {[answers w (clock w)]} ∪ fds w) by set_solver.
  unfold startup, startup_calls, armed, raw_of.
  unfold mbind, M_bind, gets, modify, when, mret, M_ret.
  unfold open. cbn.
  rewrite (value_of_nonneg (answers w (clock w))) by lia.
  destruct (Z.ltb_spec (answers w (clock w)) 0); [lia|].
  destruct (Z.ltb_spec (answers w (clock w)) 1); [lia|].
  unfold tcgetpgrp; cbn.
  rewrite fd_answer_open by done. cbn.
  rewrite (value_of_nonneg (answers w (S (clock w)))) by done.
  destruct (Z.ltb_spec (answers w (S (clock w))) 0); [lia|].
  unfold tcsetpgrp; cbn.
  rewrite fd_answer_open by done. cbn.
  rewrite (status_of_nonneg (answers w (S (S (clock w))))) by done. cbn.
  unfold tcgetattr; cbn.
  rewrite fd_answer_open by done. cbn.
  rewrite (status_of_nonneg (answers w (S (S (S (clock w)))))) by done. cbn.
  unfold tcsetattr; cbn.
  rewrite fd_answer_open by done. cbn.
  rewrite (status_of_nonneg (answers w (S (S (S (S (clock w))))))) by done. cbn.
  done.
Qed.

End StartupProofs.

Section ReadLoopProofs.

Context `{Platform}.

(** *** The read loop as a whole *)

Lemma read_loop_cons ev rest s :
  read_loop (ev :: rest) s =
  match loop_body ev s with
  | (pre, Ret _ s') => (pre ++ calls (read_loop rest) s', out (read_loop rest) s')
  | (pre, Stop e s') => (pre, Stop e s')
  end.
Proof. cbn [read_loop]. by rewrite run_bind. Qed.

Lemma read_loop_again ev rest s pre s' :
  loop_body ev s = (pre, Ret tt s') →
  read_loop (ev :: rest) s =
    (pre ++ calls (read_loop rest) s', out (read_loop rest) s').
Proof. intros E. by rewrite read_loop_cons, E. Qed.

Lemma read_loop_stop ev rest s pre e s' :
  loop_body ev s = (pre, Stop e s') → read_loop (ev :: rest) s = (pre, Stop e s').
Proof. intros E. by rewrite read_loop_cons, E. Qed.

(** Induction over the turns of the loop. *)
Lemma read_loop_turns (P : state → list call * outcome unit → Prop) :
  (∀ s, P s ([], Stop Block s)) →
  (∀ s pre s' res,
     Forall (λ c, quiet c = true) pre → guard s' = guard s →
     P s' res → P s (pre ++ res.1, res.2)) →
  (∀ s pre sig s',
     Forall (λ c, quiet c = true) pre → guard s' = guard s →
     P s (pre ++ calls (exit_handler (A := unit) sig) s',
          out (exit_handler (A := unit) sig) s')) →
  (∀ s sig, sigtab (os s) !! signo sig = None → P s ([], Stop (Kill (signo sig)) s)) →
  ∀ input s, P s (read_loop input s).
Proof.
  intros Hblock Hagain Hexit Hkill input.
  induction input as [|ev rest IH]; intros s; [apply Hblock|].
  rewrite read_loop_cons.
  destruct (loop_body_turn ev s) as [pre s' Hq Hg|pre sig s' Hq Hg|sig Hs].
  - apply (Hagain s pre s' (read_loop rest s')); auto.
  - specialize (Hexit s pre sig s' Hq Hg). revert Hexit.
    unfold calls, out. rewrite exit_handler_run. cbn [fst snd]. done.
  - by apply Hkill.
Qed.

Lemma read_loop_stops input s : ∃ e s', out (read_loop input) s = Stop e s'.
Proof.
  unfold out. revert s.
  apply (read_loop_turns (λ _ res, ∃ e s', res.2 = Stop e s')); cbn; eauto.
  intros _ _ sig s' _ _. unfold out. rewrite exit_handler_run. cbn; eauto.
Qed.

(** [exit_handler] and the loop read the guard's part of the state only. *)
Lemma exit_handler_guard {A B} sig s1 s2 :
  guard s1 = guard s2 →
  same_run (exit_handler (A := A) sig s1) (exit_handler (A := B) sig s2).
Proof.
  intros Hg. rewrite !exit_handler_run. unfold calls, out. rewrite !cleanup_run.
  destruct s1, s2. unfold guard in Hg. simplify_eq/=.
  unfold same_run, restore_calls, restore_world; cbn. done.
Qed.

Lemma loop_body_guard ev s1 s2 :
  guard s1 = guard s2 → same_run (loop_body ev s1) (loop_body ev s2).
Proof.
  intros Hg.
  assert (Hfd : _global_fd s1 = _global_fd s2) by (unfold guard in Hg; congruence).
  assert (Hos : os s1 = os s2) by (unfold guard in Hg; congruence).
  assert (He : ∀ pre sig e1 e2 c1 c2,
    same_run (pre ++ calls (exit_handler (A := unit) sig) (set_c0 c1 (set_errno e1 s1)),
              out (exit_handler (A := unit) sig) (set_c0 c1 (set_errno e1 s1)))
             (pre ++ calls (exit_handler (A := unit) sig) (set_c0 c2 (set_errno e2 s2)),
              out (exit_handler (A := unit) sig) (set_c0 c2 (set_errno e2 s2)))).
  { intros pre sig e1 e2 c1 c2.
    destruct (exit_handler_guard (A := unit) (B := unit) sig
                (set_c0 c1 (set_errno e1 s1)) (set_c0 c2 (set_errno e2 s2)))
      as (E1 & E2 & E3).
    - unfold guard in *. cbn. done.
    - unfold same_run, calls, out. cbn. by rewrite E1. }
  assert (Hid : ∀ s, set_c0 (c0 s) (set_errno (errno s) s) = s) by (by intros []).
  destruct ev as [sig|[e| |b]].
  - rewrite !loop_body_deliver, Hfd, Hos.
    destruct (sigtab (os s2) !! signo sig) as [[]|]; try done.
    specialize (He [] (signo sig) (errno s1) (errno s2) (c0 s1) (c0 s2)).
    by rewrite !Hid in He.
  - rewrite !loop_body_error, Hfd. destruct (e =? EINTR); [done|].
    specialize (He [c_read (_global_fd s2) (rd_error e); c_perror "stdin read"]
                  0 e e (c0 s1) (c0 s2)).
    assert (Hc : ∀ s, set_c0 (c0 s) (set_errno e s) = set_errno e s) by (by intros []).
    by rewrite !Hc in He.
  - rewrite !loop_body_eof, Hfd.
    specialize (He [c_read (_global_fd s2) rd_eof;
      c_printf ("Exiting on stdin EOF (should happen only in cannon mode" +:+ nl)]
      0 (errno s1) (errno s2) (c0 s1) (c0 s2)).
    by rewrite !Hid in He.
  - rewrite !loop_body_byte, Hfd. destruct (to_char b =? CEOF); [|done].
    specialize (He [c_read (_global_fd s2) (rd_byte b);
      c_printf ("Exiting on stdin EOF (hopefully only in noncannon mode)" +:+ nl)]
      0 (errno s1) (errno s2) (to_char b) (to_char b)).
    assert (Hc : ∀ s, set_c0 (to_char b) (set_errno (errno s) s) = set_c0 (to_char b) s)
      by (by intros []).
    by rewrite !Hc in He.
Qed.

Lemma read_loop_guard input s1 s2 :
  guard s1 = guard s2 → same_run (read_loop input s1) (read_loop input s2).
Proof.
  revert s1 s2. induction input as [|ev rest IH]; intros s1 s2 Hg; [done|].
  rewrite !read_loop_cons.
  destruct (loop_body_guard ev s1 s2 Hg) as (E1 & E2 & E3).
  destruct (loop_body ev s1) as [pre1 [[] s1'|e1 s1']],
           (loop_body ev s2) as [pre2 [[] s2'|e2 s2']]; cbn in *; try done.
  destruct (IH s1' s2' E3) as (F1 & F2 & F3).
  unfold same_run, calls, out; cbn. by rewrite E1, F1.
Qed.

End ReadLoopProofs.

Section MainProofs.

Context `{Platform}.

(** *** [main] *)

Lemma install_handlers_run s :
  install_handlers s =
  ([c_sigaction (signo SIGINT) h_handler2;
    c_sigaction (signo SIGQUIT) h_handler3;
    c_sigaction (signo SIGHUP) h_exit_handler;
    c_sigaction (signo SIGTERM) h_exit_handler],
   Ret tt (set_os (set_sigtab (installed (sigtab (os s))) (os s)) s)).
Proof. reflexivity. Qed.

Lemma installed_lookup t sig :
  installed t !! signo sig =
  Some match sig with
       | SIGINT => h_handler2
       | SIGQUIT => h_handler3
       | SIGHUP | SIGTERM => h_exit_handler
       end.
Proof. unfold installed. destruct sig; cbn; by simplify_map_eq. Qed.

Lemma installed_all_bound s :
  all_bound (set_sigtab (installed (sigtab (os s))) (os s)).
Proof. intros sig. unfold set_sigtab. cbn [sigtab]. by rewrite installed_lookup. Qed.

Lemma main_run_ok w junk input :
  env_ok w →
  calls (main input) (boot w junk) =
    startup_calls w ++ install_calls ++ calls (read_loop input) (ready w junk) ∧
  ended (out (main input) (boot w junk)) = ended (out (read_loop input) (ready w junk)) ∧
  final (out (main input) (boot w junk)) = final (out (read_loop input) (ready w junk)).
Proof.
  intros Hok.
  destruct (read_loop_stops input (ready w junk)) as (e & s' & E).
  assert (Hm : main input (boot w junk) =
    (startup_calls w ++ install_calls ++ calls (read_loop input) (ready w junk),
     Stop e s')).
  { unfold main.
    rewrite (run_bind_ret _ _ _ _ _ _ (startup_run_ok w junk Hok)).
    rewrite (run_bind_ret _ _ _ _ _ _ (install_handlers_run _)).
    change (set_os _ (armed w junk)) with (ready w junk).
    rewrite (run_bind_ret _ _ (ready w junk)
      [c_printf ("Use C-c and C-g for async actions, end with C-d" +:+ nl)]
      tt (ready w junk) eq_refl).
    rewrite (run_bind_stop _ _ (ready w junk)
      (calls (read_loop input) (ready w junk)) e s').
    - cbn [fst snd]. by f_equal.
    - unfold out, calls in *. by destruct (read_loop input (ready w junk)); simplify_eq/=. }
  unfold calls, out in *. rewrite Hm, E. done.
Qed.

Lemma exit_handler_ended {A} sig s :
  ended (out (exit_handler (A := A) sig) s) = Some (Exit 0).
Proof. unfold out. by rewrite exit_handler_run. Qed.

Lemma exits_zero_bind {A B} (m : M A) (k : A → M B) :
  exits_zero m → (∀ a, exits_zero (k a)) → exits_zero (m ≫= k).
Proof.
  intros Hm Hk s. unfold out. rewrite run_bind.
  specialize (Hm s). unfold out in Hm.
  destruct (m s) as [ev [a s'|e s']]; cbn in *; [apply Hk|].
  destruct Hm; [done|auto].
Qed.

Lemma exits_zero_when b m : exits_zero m → exits_zero (when b m).
Proof. intros Hm. destruct b; [done|]. intros s. by left. Qed.

Lemma exits_zero_exit_handler {A} sig : exits_zero (exit_handler (A := A) sig).
Proof. intros s. right. apply exit_handler_ended. Qed.

(** The startup sequence either falls through or ends in [exit(0)]. *)
Lemma startup_ends : exits_zero startup.
Proof.
  unfold startup.
  repeat first
    [ apply exits_zero_exit_handler
    | apply exits_zero_when
    | apply exits_zero_bind; [|intros ?]
    | by (intros ?; left) ].
Qed.

(** With all four signals bound, the loop ends by [exit(0)] or waits. *)
Lemma read_loop_ends input s :
  all_bound (os s) →
  ended (out (read_loop input) s) = Some (Exit 0) ∨
  ended (out (read_loop input) s) = Some Block.
Proof.
  unfold out. revert s.
  apply (read_loop_turns (λ s res, all_bound (os s) →
    ended res.2 = Some (Exit 0) ∨ ended res.2 = Some Block)); cbn; auto.
  - intros s pre s' res _ Hg IH Hb. apply IH.
    replace (os s') with (os s); [done|]. unfold guard in Hg. congruence.
  - intros s pre sig s' _ _ _. left. apply exit_handler_ended.
  - intros s sig E Hb. destruct (Hb sig E).
Qed.

Lemma main_ends input s :
  ended (out (main input) s) = Some (Exit 0) ∨
  ended (out (main input) s) = Some Block.
Proof.
  unfold main, out. rewrite run_bind.
  destruct (startup_ends s) as [E|E]; unfold out in E;
    destruct (startup s) as [tr [[] s1|e s1]]; cbn in E; simplify_eq; cbn; auto.
  rewrite (run_bind_ret _ _ _ _ _ _ (install_handlers_run _)).
  set (s2 := set_os _ s1).
  rewrite (run_bind_ret _ _ s2
    [c_printf ("Use C-c and C-g for async actions, end with C-d" +:+ nl)]
    tt s2 eq_refl).
  pose proof (read_loop_ends input s2 (installed_all_bound s1)) as E.
  destruct (read_loop_stops input s2) as (e & s3 & E3).
  rewrite (run_bind_stop _ _ s2 (calls (read_loop input) s2) e s3).
  - rewrite E3 in E. cbn in *. done.
  - unfold out, calls in *. by destruct (read_loop input s2); simplify_eq/=.
Qed.

End MainProofs.

(** * Properties of the program *)

Section Teardown.

Context `{Platform}.

(** C2 (as amended).  With [cleanupP] unset, [cleanup] makes exactly one
    call, [close(_global_fd)], whatever [_global_fd] holds: no [tcsetattr],
    and no test that the descriptor is open (the call returns -1 when it is
    not, as after a failed [open]). *)
Theorem unarmed_cleanup_only_closes (s : state) :
  cleanupP s = 0 →
  calls cleanup s =
    [c_close (_global_fd s) (if decide (_global_fd s ∈ fds (os s)) then 0 else -1)] ∧
  count is_tcsetattr (calls cleanup s) = 0%nat ∧
  count is_close (calls cleanup s) = 1%nat ∧
  out cleanup s =
    Ret tt (set_os (set_fds (fds (os s) ∖ {[_global_fd s]}) (os s)) s).
Proof.
  intros E. unfold calls, out. rewrite cleanup_run.
  unfold restore_calls, restore_world, close_ret, close_world. rewrite E. cbn.
  repeat split. case_decide; [done|].
  assert (fds (os s) ∖ {[_global_fd s]} = fds (os s)) as ->
    by (by apply difference_disjoint_L, disjoint_singleton_r).
  by destruct s as [? ? ? ? ? ? []].
Qed.

End Teardown.

(** C2, witness: the state after a failed [open]. *)
Lemma unarmed_cleanup_only_closes_witness :
  let s := set__global_fd (-1) (boot (H := linux) (login_world no_terminal) 0) in
  cleanupP s = 0 ∧
  calls (cleanup (H := linux)) s = [c_close (-1) (-1)].
Proof.
  split; [reflexivity|].
  exact (proj1 (unarmed_cleanup_only_closes (H := linux)
    (set__global_fd (-1) (boot (H := linux) (login_world no_terminal) 0)) eq_refl)).
Defined.

(** C2, counterexample: when [open] fails, the handle is absent and a close
    is attempted all the same. *)
Lemma close_attempted_after_failed_open :
  calls (main (H := linux) []) (boot (H := linux) (login_world no_terminal) 0) =
    [c_open "/dev/tty" 0 (-1); c_perror "open /dev/tty"; c_close (-1) (-1); c_exit 0] ∧
  count is_close
    (calls (main (H := linux) []) (boot (H := linux) (login_world no_terminal) 0)) = 1%nat.
Proof. split; vm_compute; reflexivity. Qed.

Section TeardownCounts.

Context `{Platform}.

Lemma cleanup_counts s :
  count is_tcsetattr (calls cleanup s) = (if truthy (cleanupP s) then 1 else 0)%nat ∧
  count is_close (calls cleanup s) = 1%nat.
Proof.
  unfold calls. rewrite cleanup_run. cbn [fst]. unfold restore_calls.
  destruct (truthy (cleanupP s)); [|done].
  destruct (_ <? 0); done.
Qed.

Lemma cleanup_keeps_globals s :
  let s' := final (out cleanup s) in
  cleanupP s' = cleanupP s ∧ oldttystate s' = oldttystate s ∧
  ttystate s' = ttystate s ∧ _global_fd s' = _global_fd s.
Proof. unfold out. rewrite cleanup_run. done. Qed.

Lemma exit_handler_counts {A} sig s :
  count is_tcsetattr (calls (exit_handler (A := A) sig) s)
    = (if truthy (cleanupP s) then 1 else 0)%nat ∧
  count is_close (calls (exit_handler (A := A) sig) s) = 1%nat.
Proof.
  destruct (cleanup_counts s) as [E1 E2].
  unfold calls. rewrite exit_handler_run. cbn [fst].
  rewrite !count_app, E1, E2. destruct (truthy sig); cbn; lia.
Qed.

(** A signal bound to [exit_handler] ends the run at its first delivery:
    what the script holds after it is never looked at. *)
Lemma read_loop_terminate sig rest s :
  sigtab (os s) !! signo sig = Some h_exit_handler →
  read_loop (Deliver sig :: rest) s = exit_handler (signo sig) s.
Proof.
  intros E. rewrite read_loop_cons, loop_body_deliver, E.
  unfold calls, out. rewrite exit_handler_run. done.
Qed.

(** C1 (as amended).  [cleanup] never clears [cleanupP] and is not
    idempotent: with [cleanupP] set every call issues one [tcsetattr] and
    one [close], and two calls in a row issue two of each.  When one signal
    bound to [exit_handler] is delivered twice in succession while [read]
    blocks, and nothing else arrives, the process has exited at the first
    delivery, after exactly one [tcsetattr] and one [close]: the run is
    that of a single delivery. *)
Theorem cleanup_repeats_until_exit (s : state) (sig : signal) :
  cleanupP s ≠ 0 →
  sigtab (os s) !! signo sig = Some h_exit_handler →
  cleanupP (final (out cleanup s)) = cleanupP s ∧
  (count is_tcsetattr (calls cleanup s) = 1 ∧
   count is_close (calls cleanup s) = 1)%nat ∧
  (count is_tcsetattr (calls (cleanup;; cleanup) s) = 2 ∧
   count is_close (calls (cleanup;; cleanup) s) = 2)%nat ∧
  read_loop [Deliver sig; Deliver sig] s = read_loop [Deliver sig] s ∧
  (count is_tcsetattr (calls (read_loop [Deliver sig; Deliver sig]) s) = 1 ∧
   count is_close (calls (read_loop [Deliver sig; Deliver sig]) s) = 1)%nat ∧
  ended (out (read_loop [Deliver sig; Deliver sig]) s) = Some (Exit 0).
Proof.
  intros Harmed Hbound.
  assert (Ht : truthy (cleanupP s) = true).
  { unfold truthy. by destruct (Z.eqb_spec (cleanupP s) 0). }
  destruct (cleanup_counts s) as [C1 C2]. rewrite Ht in C1.
  split; [apply cleanup_keeps_globals|].
  split; [done|].
  split.
  - unfold calls at 1 2. rewrite run_bind.
    pose proof (cleanup_keeps_globals s) as (K & _).
    destruct (cleanup_counts (final (out cleanup s))) as [D1 D2].
    rewrite K, Ht in D1. unfold calls, out in *.
    destruct (cleanup s) as [tr [[] s1|e s1]] eqn:E1.
    + cbn [fst snd final] in *. rewrite !count_app. lia.
    + rewrite cleanup_run in E1. done.
  - split; [by rewrite !read_loop_terminate|].
    unfold calls, out. rewrite read_loop_terminate by done.
    destruct (exit_handler_counts (A := unit) (signo sig) s) as [E1 E2].
    rewrite Ht in E1. split; [done|]. apply exit_handler_ended.
Qed.

End TeardownCounts.

(** C1, witness: the state at the first [read] of a run in which every call
    succeeds, and SIGTERM. *)
Lemma cleanup_repeats_until_exit_witness :
  let s := ready (H := linux) (login_world all_succeed) 0 in
  cleanupP s ≠ 0 ∧
  sigtab (os s) !! signo SIGTERM = Some h_exit_handler ∧
  cleanupP (final (out (cleanup (H := linux)) s)) = cleanupP s.
Proof.
  assert (H1 : cleanupP (ready (H := linux) (login_world all_succeed) 0) ≠ 0) by done.
  assert (H2 : sigtab (os (ready (H := linux) (login_world all_succeed) 0))
               !! signo SIGTERM = Some h_exit_handler) by done.
  split; [exact H1|]. split; [exact H2|].
  destruct (cleanup_repeats_until_exit (H := linux) _ SIGTERM H1 H2) as [Hflag _].
  exact Hflag.
Defined.

(** C1, counterexample: with the terminal in raw mode, the first [cleanup]
    leaves [cleanupP] set, and a second call is no no-op: it repeats the
    [tcsetattr], which now fails on the closed descriptor and is reported,
    and repeats the [close]. *)
Lemma second_cleanup_repeats :
  let s := ready (H := linux) (login_world all_succeed) 0 in
  cleanupP (final (out (cleanup (H := linux)) s)) = 1 ∧
  calls (cleanup (H := linux);; cleanup (H := linux)) s =
    calls (cleanup (H := linux)) s ++
    [c_printf ("Resettung terminal" +:+ nl);
     c_tcsetattr 3 0 cooked (-1);
     c_perror "ioctl reset /dev/tty";
     c_close 3 (-1)] ∧
  calls (cleanup (H := linux);; cleanup (H := linux)) s ≠ calls (cleanup (H := linux)) s.
Proof.
  cbn zeta. split; [by vm_compute|]. split; [by vm_compute|].
  intros E. apply (f_equal length) in E. vm_compute in E. discriminate.
Qed.

Section Startup.

Context `{Platform}.

(** C10.  When [open] succeeds with descriptor 0 the program takes it for a
    failure: it reports "open /dev/tty", closes descriptor 0, which is open,
    and exits, without any call on the terminal. *)
Theorem open_fd_zero_taken_as_failure (w : world) (junk : Z) (input : list tty_event) :
  answers w (clock w) = 0 →
  calls (main input) (boot w junk) =
    [c_open "/dev/tty" O_RDONLY 0; c_perror "open /dev/tty"; c_close 0 0; c_exit 0] ∧
  ended (out (main input) (boot w junk)) = Some (Exit 0) ∧
  0 ∈ fds (os (final (out (open "/dev/tty" O_RDONLY) (boot w junk)))).
Proof.
  intros E.
  assert (Hin : 0 ∈ ({[0]} ∪ fds w : gset Z)) by (apply elem_of_union_l; by apply elem_of_singleton).
  assert (Hs : startup (boot w junk) =
    ([c_open "/dev/tty" O_RDONLY 0; c_perror "open /dev/tty"; c_close 0 0; c_exit 0],
     Stop (Exit 0) (final (out (exit_handler (A := unit) 0)
       (set__global_fd 0 (final (out (open "/dev/tty" O_RDONLY) (boot w junk)))))))).
  { unfold startup, out.
    unfold mbind, M_bind, gets, modify, when, mret, M_ret, perror, open.
    cbn. rewrite E. cbn.
    rewrite !exit_handler_run. unfold calls, out. rewrite !cleanup_run.
    unfold restore_calls, restore_world, close_ret, close_world. cbn.
    rewrite !decide_True by done. done. }
  unfold main, calls, out. rewrite (run_bind_stop _ _ _ _ _ _ Hs).
  split; [done|]. split; [done|].
  unfold open. cbn. by rewrite E.
Qed.

End Startup.


(** C10, witness: a process started with standard input closed. *)
Lemma open_fd_zero_taken_as_failure_witness :
  answers (no_stdin_world lowest_is_zero) (clock (no_stdin_world lowest_is_zero)) = 0 ∧
  calls (main (H := linux) []) (boot (H := linux) (no_stdin_world lowest_is_zero) 0) =
    [c_open "/dev/tty" 0 0; c_perror "open /dev/tty"; c_close 0 0; c_exit 0].
Proof.
  split; [reflexivity|].
  exact (proj1 (open_fd_zero_taken_as_failure (H := linux)
    (no_stdin_world lowest_is_zero) 0 [] eq_refl)).
Defined.

Section WorkingMode.

Context `{Platform}.

Lemma tcflag_clear_bits x m i :
  0 ≤ x < 2 ^ 32 →
  Z.testbit (tcflag_clear x m) i = Z.testbit x i && negb (Z.testbit m i).
Proof.
  intros Hx. unfold tcflag_clear, to_tcflag. rewrite Z.land_spec.
  destruct (Z.lt_ge_cases i 0) as [Hi|Hi].
  { by rewrite (Z.testbit_neg_r x i Hi). }
  destruct (Z.lt_ge_cases i 32) as [Hi'|Hi'].
  - rewrite Z.mod_pow2_bits_low by lia. by rewrite Z.lnot_spec.
  - rewrite Z.mod_pow2_bits_high by lia.
    rewrite <- (Z.mod_small x (2 ^ 32)) at 2 by lia.
    rewrite Z.mod_pow2_bits_high by lia. by rewrite andb_false_r.
Qed.

Lemma tcflag_clear_range x m : 0 ≤ x < 2 ^ 32 → 0 ≤ tcflag_clear x m < 2 ^ 32.
Proof.
  intros _. unfold tcflag_clear, to_tcflag.
  rewrite <- (Z.land_ones (Z.lnot m) 32) by lia.
  rewrite Z.land_assoc, Z.land_ones by lia.
  apply Z.mod_pos_bound. lia.
Qed.

(** C5.  After a successful startup the working mode [ttystate] is the saved
    mode [oldttystate] with the bits of [ICANON] and [ECHO] cleared in
    [c_lflag] and entry [VQUIT] of [c_cc] set to [CTRL('g')], which is 7:
    the other three flag words, every other bit of [c_lflag] and every other
    entry of [c_cc] are those of the saved mode.  The terminal has the
    working mode and [cleanupP] is 1. *)
Theorem working_mode_frame (w : world) (junk : Z) :
  env_ok w →
  0 ≤ c_lflag (tty w) < 2 ^ 32 →
  (VQUIT < length (c_cc (tty w)))%nat →
  let s := final (out startup (boot w junk)) in
  oldttystate s = tty w ∧
  c_iflag (ttystate s) = c_iflag (oldttystate s) ∧
  c_oflag (ttystate s) = c_oflag (oldttystate s) ∧
  c_cflag (ttystate s) = c_cflag (oldttystate s) ∧
  (∀ i, Z.testbit (c_lflag (ttystate s)) i =
        Z.testbit (c_lflag (oldttystate s)) i
        && negb (Z.testbit ICANON i) && negb (Z.testbit ECHO i)) ∧
  Z.land (c_lflag (ttystate s)) ICANON = 0 ∧
  Z.land (c_lflag (ttystate s)) ECHO = 0 ∧
  c_cc (ttystate s) !! VQUIT = Some (CTRL (chr "g")) ∧
  CTRL (chr "g") = 7 ∧
  (∀ j, j ≠ VQUIT → c_cc (ttystate s) !! j = c_cc (oldttystate s) !! j) ∧
  length (c_cc (ttystate s)) = length (c_cc (oldttystate s)) ∧
  tty (os s) = ttystate s ∧
  cleanupP s = 1.
Proof.
  intros Hok Hl Hq. unfold out. rewrite (startup_run_ok w junk Hok). cbn.
  assert (Hbits : ∀ i,
    Z.testbit (tcflag_clear (tcflag_clear (c_lflag (tty w)) ICANON) ECHO) i =
    Z.testbit (c_lflag (tty w)) i && negb (Z.testbit ICANON i) && negb (Z.testbit ECHO i)).
  { intros i. rewrite tcflag_clear_bits by by apply tcflag_clear_range.
    by rewrite tcflag_clear_bits. }
  repeat split; try done.
  - apply Z.bits_inj'. intros i _. rewrite Z.land_spec, Hbits, Z.bits_0.
    by destruct (Z.testbit ICANON i), (Z.testbit (c_lflag (tty w)) i),
      (Z.testbit ECHO i).
  - apply Z.bits_inj'. intros i _. rewrite Z.land_spec, Hbits, Z.bits_0.
    by destruct (Z.testbit ECHO i), (Z.testbit (c_lflag (tty w)) i),
      (Z.testbit ICANON i).
  - by apply list_lookup_insert_eq.
  - intros j Hj. by apply list_lookup_insert_ne.
  - apply length_insert.
Qed.

End WorkingMode.

(** C5, witness: a cooked Linux terminal.  ICANON and ECHO go from set to
    clear, the quit character from 28 to 7. *)
Lemma working_mode_frame_witness :
  env_ok (login_world all_succeed) ∧
  0 ≤ c_lflag (tty (login_world all_succeed)) < 2 ^ 32 ∧
  (VQUIT (Platform := linux) < length (c_cc (tty (login_world all_succeed))))%nat ∧
  Z.land (c_lflag cooked) 2 = 2 ∧ Z.land (c_lflag cooked) 8 = 8 ∧
  Z.land
    (c_lflag (ttystate (final (out (startup (H := linux))
       (boot (H := linux) (login_world all_succeed) 0))))) 2 = 0.
Proof.
  assert (Hok : env_ok (login_world all_succeed)) by (unfold env_ok; cbn; lia).
  assert (Hl : 0 ≤ c_lflag (tty (login_world all_succeed)) < 2 ^ 32) by (cbn; lia).
  assert (Hq : (VQUIT (Platform := linux)
                < length (c_cc (tty (login_world all_succeed))))%nat) by (cbn; lia).
  split; [exact Hok|]. split; [exact Hl|]. split; [exact Hq|].
  split; [reflexivity|]. split; [reflexivity|].
  exact (proj1 (proj2 (proj2 (proj2 (proj2 (proj2
    (working_mode_frame (H := linux) (login_world all_succeed) 0 Hok Hl Hq))))))).
Defined.

Section Restoration.

Context `{Platform}.

Lemma last_tcsetattr_app tr1 tr2 :
  last_tcsetattr (tr1 ++ tr2) =
  match last_tcsetattr tr2 with
  | Some x => Some x
  | None => last_tcsetattr tr1
  end.
Proof.
  induction tr1 as [|c tr1 IH]; cbn; [by destruct (last_tcsetattr tr2)|].
  rewrite IH. by destruct (last_tcsetattr tr2).
Qed.

Lemma last_tcsetattr_quiet tr :
  Forall (λ c, quiet c = true) tr → last_tcsetattr tr = None.
Proof. induction 1 as [|[] tr Hc _ IH]; cbn; by rewrite ?IH. Qed.

(** What [exit_handler] does when the terminal is in raw mode and the
    descriptor is open. *)
Lemma exit_handler_restores {A} sig s :
  cleanupP s = 1 → _global_fd s ∈ fds (os s) →
  let r := status_of (answers (os s) (clock (os s))) in
  last_tcsetattr (calls (exit_handler (A := A) sig) s) = Some (oldttystate s, r) ∧
  oldttystate (final (out (exit_handler (A := A) sig) s)) = oldttystate s ∧
  (r = 0 → tty (os (final (out (exit_handler (A := A) sig) s))) = oldttystate s).
Proof.
  intros Hc Hfd. unfold calls, out. rewrite exit_handler_run. cbn [fst snd final].
  unfold calls, out. rewrite cleanup_run. cbn [fst snd final].
  unfold restore_calls, restore_world, close_world. rewrite Hc. cbn [truthy Z.eqb negb].
  rewrite fd_answer_open by done.
  repeat split.
  - rewrite !last_tcsetattr_app.
    destruct (truthy sig), (status_of _ <? 0); done.
  - intros Hr. rewrite Hr. cbn. by case_decide.
Qed.

Lemma guard_eq s s' :
  guard s' = guard s →
  oldttystate s' = oldttystate s ∧ cleanupP s' = cleanupP s ∧
  _global_fd s' = _global_fd s ∧ os s' = os s.
Proof. unfold guard. intros [= _ -> -> -> ->]. done. Qed.

Lemma read_loop_restores input s :
  cleanupP s = 1 → _global_fd s ∈ fds (os s) → all_bound (os s) →
  let r := status_of (answers (os s) (clock (os s))) in
  let run := read_loop input s in
  oldttystate (final run.2) = oldttystate s ∧
  match ended run.2 with
  | Some (Exit _) =>
      last_tcsetattr run.1 = Some (oldttystate s, r) ∧
      (r = 0 → tty (os (final run.2)) = oldttystate s)
  | _ => last_tcsetattr run.1 = None ∧ tty (os (final run.2)) = tty (os s)
  end.
Proof.
  cbn zeta. revert s.
  apply (read_loop_turns (λ s res,
    cleanupP s = 1 → _global_fd s ∈ fds (os s) → all_bound (os s) →
    oldttystate (final res.2) = oldttystate s ∧
    match ended res.2 with
    | Some (Exit _) =>
        last_tcsetattr res.1
          = Some (oldttystate s, status_of (answers (os s) (clock (os s)))) ∧
        (status_of (answers (os s) (clock (os s))) = 0 →
         tty (os (final res.2)) = oldttystate s)
    | _ => last_tcsetattr res.1 = None ∧ tty (os (final res.2)) = tty (os s)
    end)).
  - intros s _ _ _. done.
  - intros s pre s' res Hq Hg IH Hc Hfd Hb.
    destruct (guard_eq s s' Hg) as (G1 & G2 & G3 & G4).
    rewrite G1, G2, G3, G4 in IH. specialize (IH Hc Hfd Hb).
    cbn [fst snd]. rewrite last_tcsetattr_app, (last_tcsetattr_quiet pre Hq).
    destruct IH as [IH1 IH2]. split; [done|].
    destruct (ended res.2) as [[]|]; destruct IH2 as [IH2 IH3];
      rewrite IH2; done.
  - intros s pre sig s' Hq Hg Hc Hfd Hb.
    destruct (guard_eq s s' Hg) as (G1 & G2 & G3 & G4).
    rewrite <- G1, <- G2, <- G3, <- G4 in *.
    destruct (exit_handler_restores (A := unit) sig s' Hc Hfd) as (E1 & E2 & E3).
    cbn [fst snd]. rewrite exit_handler_ended, last_tcsetattr_app, E1. done.
  - intros s sig E _ _ Hb. destruct (Hb sig E).
Qed.

(** C4.  In every run whose startup succeeds, [oldttystate] holds to the end
    the attributes [M] the terminal had at startup, and a run that exits has
    made its last [tcsetattr] with exactly [M]; when that call succeeds the
    terminal's attributes are [M] again.  Until then the terminal is in the
    working mode. *)
Theorem restore_roundtrip (w : world) (junk : Z) (input : list tty_event) :
  env_ok w →
  let M := tty w in
  let r := status_of (answers w (5 + clock w)%nat) in
  let run := main input (boot w junk) in
  oldttystate (final run.2) = M ∧
  match ended run.2 with
  | Some (Exit _) =>
      last_tcsetattr run.1 = Some (M, r) ∧
      (r = 0 → tty (os (final run.2)) = M)
  | _ =>
      last_tcsetattr run.1 = Some (raw_of M, 0) ∧
      tty (os (final run.2)) = raw_of M
  end.
Proof.
  intros Hok. cbn zeta.
  destruct (main_run_ok w junk input Hok) as (E1 & E2 & E3).
  unfold calls, out in E1, E2, E3. rewrite E1, E2, E3.
  assert (Hfd : _global_fd (ready w junk) ∈ fds (os (ready w junk))).
  { cbn. apply elem_of_union_l. by apply elem_of_singleton. }
  destruct (read_loop_restores input (ready w junk) eq_refl Hfd
              (installed_all_bound (armed w junk))) as [R1 R2].
  split; [exact R1|].
  rewrite !last_tcsetattr_app. unfold calls.
  destruct (ended (read_loop input (ready w junk)).2) as [[]|];
    destruct R2 as [R2 R3]; rewrite R2; done.
Qed.

End Restoration.

(** C4, witness: a cooked terminal, the bytes 'h' and 'i', then end of
    input.  The run exits and the terminal is cooked again. *)
Lemma restore_roundtrip_witness :
  env_ok (login_world all_succeed) ∧
  ended (main (H := linux) [Data (rd_byte 104); Data (rd_byte 105); Data rd_eof]
           (boot (H := linux) (login_world all_succeed) 0)).2 = Some (Exit 0) ∧
  oldttystate (final (main (H := linux)
      [Data (rd_byte 104); Data (rd_byte 105); Data rd_eof]
      (boot (H := linux) (login_world all_succeed) 0)).2)
    = tty (login_world all_succeed).
Proof.
  assert (Hok : env_ok (login_world all_succeed)) by (unfold env_ok; cbn; lia).
  split; [exact Hok|]. split; [by vm_compute|].
  destruct (restore_roundtrip (H := linux) (login_world all_succeed) 0
    [Data (rd_byte 104); Data (rd_byte 105); Data rd_eof] Hok) as [Hold _].
  exact Hold.
Defined.

(** C6.  SIGTERM arrives while the program waits in [read], the terminal in
    raw mode.  [exit_handler] runs as the signal handler, and of its five
    calls three are not async-signal-safe: the two [printf] and [exit].
    ([handler2] and [handler3] write their messages with [write].) *)
Theorem exit_handler_calls_stdio :
  let s := ready (H := linux) (login_world all_succeed) 0 in
  sigtab (os s) !! signo SIGTERM = Some h_exit_handler ∧
  calls (read_loop (H := linux) [Deliver SIGTERM]) s =
    [c_printf ("Resettung terminal" +:+ nl);
     c_tcsetattr 3 0 cooked 0;
     c_close 3 0;
     c_printf ("Exiting on signal 15" +:+ nl);
     c_exit 0] ∧
  List.filter (λ c, negb (async_signal_safe c))
    (calls (read_loop (H := linux) [Deliver SIGTERM]) s) =
    [c_printf ("Resettung terminal" +:+ nl);
     c_printf ("Exiting on signal 15" +:+ nl);
     c_exit 0] ∧
  List.filter (λ c, negb (async_signal_safe c))
    (calls (read_loop (H := linux) [Deliver SIGINT; Deliver SIGQUIT]) s) = [].
Proof. cbn zeta. repeat split; by vm_compute. Qed.

Section ReadLoop.

Context `{Platform}.

Lemma to_char_small b : 0 ≤ b < 128 → to_char b = b.
Proof.
  intros Hb. unfold to_char. rewrite Z.mod_small by lia.
  destruct (Z.leb_spec 128 b); [lia|]. by rewrite andb_false_r.
Qed.

Lemma exit_handler_one_exit {A} sig s :
  count is_exit (calls (exit_handler (A := A) sig) s) = 1%nat.
Proof.
  unfold calls. rewrite exit_handler_run. unfold calls.
  rewrite cleanup_run. cbn [fst].
  rewrite !count_app. unfold restore_calls.
  destruct (truthy (cleanupP s)), (truthy sig); cbn;
    try destruct (_ <? 0); done.
Qed.

(** C7.  On the byte 'a', an interrupted read, the byte 'b' and the
    end-of-input character, from any state, the loop makes exactly these
    calls: the read of 'a' and its echo "You typed: 'a' (0x61)"; the
    interrupted read, with nothing after it; the read of 'b' and its echo;
    the read of ^D, the end-of-input message, and the calls of one
    [exit_handler(0)], which ends the process. *)
Theorem read_loop_scenario (s : state) :
  let script :=
    [Data (rd_byte (chr "a")); Data (rd_error EINTR);
     Data (rd_byte (chr "b")); Data (rd_byte CEOF)] in
  calls (read_loop script) s =
    [c_read (_global_fd s) (rd_byte (chr "a"));
     c_printf ("You typed: 'a' (0x61)" +:+ nl);
     c_read (_global_fd s) (rd_error EINTR);
     c_read (_global_fd s) (rd_byte (chr "b"));
     c_printf ("You typed: 'b' (0x62)" +:+ nl);
     c_read (_global_fd s) (rd_byte CEOF);
     c_printf ("Exiting on stdin EOF (hopefully only in noncannon mode)" +:+ nl)]
    ++ calls (exit_handler (A := unit) 0) s ∧
  ended (out (read_loop script) s) = Some (Exit 0) ∧
  count is_exit (calls (read_loop script) s) = 1%nat.
Proof.
  cbn zeta.
  assert (Ha : to_char (chr "a") = 97) by by apply to_char_small.
  assert (Hb : to_char (chr "b") = 98) by by apply to_char_small.
  assert (Hd : to_char CEOF = 4) by by apply to_char_small.
  set (s1 := set_c0 97 s). set (s2 := set_errno EINTR s1).
  set (s3 := set_c0 98 s2). set (s4 := set_c0 4 s3).
  assert (Hrun : read_loop
      [Data (rd_byte (chr "a")); Data (rd_error EINTR);
       Data (rd_byte (chr "b")); Data (rd_byte CEOF)] s =
    ([c_read (_global_fd s) (rd_byte (chr "a"));
      c_printf ("You typed: 'a' (0x61)" +:+ nl);
      c_read (_global_fd s) (rd_error EINTR);
      c_read (_global_fd s) (rd_byte (chr "b"));
      c_printf ("You typed: 'b' (0x62)" +:+ nl);
      c_read (_global_fd s) (rd_byte CEOF);
      c_printf ("Exiting on stdin EOF (hopefully only in noncannon mode)" +:+ nl)]
     ++ calls (exit_handler (A := unit) 0) s4,
     out (exit_handler (A := unit) 0) s4)).
  { assert (E97 : (97 =? CEOF) = false) by reflexivity.
    assert (E98 : (98 =? CEOF) = false) by reflexivity.
    assert (E4 : (4 =? CEOF) = true) by reflexivity.
    assert (L4 : read_loop [Data (rd_byte CEOF)] s3 =
      ([c_read (_global_fd s) (rd_byte CEOF);
        c_printf ("Exiting on stdin EOF (hopefully only in noncannon mode)" +:+ nl)]
       ++ calls (exit_handler (A := unit) 0) s4,
       out (exit_handler (A := unit) 0) s4)).
    { pose proof (loop_body_byte CEOF s3) as L. rewrite Hd, E4 in L.
      fold s4 in L. unfold out in *. rewrite exit_handler_run in *.
      by rewrite (read_loop_stop _ _ _ _ _ _ L). }
    assert (L3 : loop_body (Data (rd_byte (chr "b"))) s2 =
      ([c_read (_global_fd s) (rd_byte (chr "b"));
        c_printf ("You typed: 'b' (0x62)" +:+ nl)], Ret tt s3)).
    { by rewrite loop_body_byte, Hb, E98. }
    assert (L2 : loop_body (Data (rd_error EINTR)) s1 =
      ([c_read (_global_fd s) (rd_error EINTR)], Ret tt s2)).
    { by rewrite loop_body_error, Z.eqb_refl. }
    assert (L1 : loop_body (Data (rd_byte (chr "a"))) s =
      ([c_read (_global_fd s) (rd_byte (chr "a"));
        c_printf ("You typed: 'a' (0x61)" +:+ nl)], Ret tt s1)).
    { by rewrite loop_body_byte, Ha, E97. }
    rewrite (read_loop_again _ _ _ _ _ L1). unfold calls, out.
    rewrite (read_loop_again _ _ _ _ _ L2). unfold calls, out.
    rewrite (read_loop_again _ _ _ _ _ L3). unfold calls, out.
    rewrite L4. cbn [fst snd app]. reflexivity. }
  destruct (exit_handler_guard (A := unit) (B := unit) 0 s4 s eq_refl)
    as (G1 & _ & _).
  pose proof (exit_handler_one_exit (A := unit) 0 s4) as X.
  pose proof (exit_handler_ended (A := unit) 0 s4) as Y.
  unfold calls, out in *. rewrite Hrun. cbn [fst snd].
  split; [by rewrite <- G1|]. split; [done|].
  rewrite count_app, X. done.
Qed.

End ReadLoop.

Section Signals.

Context `{Platform}.

(** C8.  A signal bound to [handler2] or [handler3] that arrives while
    [read] blocks makes one [write] of a fixed message and leaves the whole
    state as it was; the process goes on, [read] returns [EINTR] and is
    retried.  Set against the run of the same script without the signal
    (second run), the run with it makes the same calls after those two, ends
    the same way, and leaves the same guard state. *)
Theorem notify_signal_transparent (s : state) (sig : signal) (rest : list tty_event) :
  sigtab (os s) !! signo SIGINT = Some h_handler2 →
  sigtab (os s) !! signo SIGQUIT = Some h_handler3 →
  sig = SIGINT ∨ sig = SIGQUIT →
  let msg := match sig with
             | SIGINT => "Async action on sigint (2)" +:+ nl
             | _ => "Async action on sigquit (3)" +:+ nl
             end in
  deliver sig s = ([c_write 1 msg], Ret tt s) ∧
  calls (read_loop (Deliver sig :: rest)) s =
    c_write 1 msg :: c_read (_global_fd s) (rd_error EINTR)
      :: calls (read_loop rest) s ∧
  ended (out (read_loop (Deliver sig :: rest)) s) = ended (out (read_loop rest) s) ∧
  guard (final (out (read_loop (Deliver sig :: rest)) s))
    = guard (final (out (read_loop rest) s)).
Proof.
  intros H2 H3 Hsig. cbn zeta.
  destruct (read_loop_guard rest (set_errno EINTR s) s eq_refl) as (G1 & G2 & G3).
  assert (L : loop_body (Deliver sig) s =
    ([c_write 1 match sig with
                | SIGINT => "Async action on sigint (2)" +:+ nl
                | _ => "Async action on sigquit (3)" +:+ nl
                end;
      c_read (_global_fd s) (rd_error EINTR)], Ret tt (set_errno EINTR s))).
  { rewrite loop_body_deliver. destruct Hsig as [-> | ->].
    - by rewrite H2.
    - by rewrite H3. }
  split.
  - unfold deliver, run_handler. destruct Hsig as [-> | ->].
    + by rewrite H2.
    + by rewrite H3.
  - unfold calls, out in *. rewrite (read_loop_again _ _ _ _ _ L).
    unfold calls, out. cbn [fst snd app]. by rewrite G1, G2, G3.
Qed.

(** C9.  A read of zero bytes and a read of the end-of-input character take
    the same way out: a message, then [exit_handler(0)], with the same calls
    from there on, the same guard state at the end, and exit status 0.  And
    0 is the status of every run of [main] that ends: after an error, at
    end of input, or on a signal. *)
Theorem eof_equivalence (s s0 : state) (input : list tty_event) :
  calls (loop_body (Data rd_eof)) s =
    [c_read (_global_fd s) rd_eof;
     c_printf ("Exiting on stdin EOF (should happen only in cannon mode" +:+ nl)]
    ++ calls (exit_handler (A := unit) 0) s ∧
  calls (loop_body (Data (rd_byte CEOF))) s =
    [c_read (_global_fd s) (rd_byte CEOF);
     c_printf ("Exiting on stdin EOF (hopefully only in noncannon mode)" +:+ nl)]
    ++ calls (exit_handler (A := unit) 0) s ∧
  ended (out (loop_body (Data rd_eof)) s) = Some (Exit 0) ∧
  ended (out (loop_body (Data (rd_byte CEOF))) s) = Some (Exit 0) ∧
  guard (final (out (loop_body (Data rd_eof)) s))
    = guard (final (out (loop_body (Data (rd_byte CEOF))) s)) ∧
  (ended (out (main input) s0) = Some (Exit 0) ∨
   ended (out (main input) s0) = Some Block).
Proof.
  assert (Hd : to_char CEOF = 4) by by apply to_char_small.
  assert (E4 : (4 =? CEOF) = true) by reflexivity.
  pose proof (loop_body_eof s) as L0.
  pose proof (loop_body_byte CEOF s) as L1. rewrite Hd, E4 in L1.
  destruct (exit_handler_guard (A := unit) (B := unit) 0 (set_c0 4 s) s eq_refl)
    as (G1 & G2 & G3).
  pose proof (exit_handler_ended (A := unit) 0 s) as X.
  pose proof (exit_handler_ended (A := unit) 0 (set_c0 4 s)) as Y.
  pose proof (main_ends input s0) as Z.
  unfold calls, out in *. rewrite L0, L1. cbn [fst snd].
  rewrite G1, G3. done.
Qed.

End Signals.

(** C8, witness: SIGINT at the first [read] of a run in which every call
    succeeded, followed by the byte 'x'. *)
Lemma notify_signal_transparent_witness :
  let s := ready (H := linux) (login_world all_succeed) 0 in
  sigtab (os s) !! signo SIGINT = Some h_handler2 ∧
  sigtab (os s) !! signo SIGQUIT = Some h_handler3 ∧
  calls (read_loop (H := linux) [Deliver SIGINT; Data (rd_byte 120)]) s =
    c_write 1 ("Async action on sigint (2)" +:+ nl)
      :: c_read (_global_fd s) (rd_error (EINTR (Platform := linux)))
      :: calls (read_loop (H := linux) [Data (rd_byte 120)]) s.
Proof.
  assert (H2 : sigtab (os (ready (H := linux) (login_world all_succeed) 0))
               !! signo SIGINT = Some h_handler2) by done.
  assert (H3 : sigtab (os (ready (H := linux) (login_world all_succeed) 0))
               !! signo SIGQUIT = Some h_handler3) by done.
  split; [exact H2|]. split; [exact H3|].
  destruct (notify_signal_transparent (H := linux) _ SIGINT
              [Data (rd_byte 120)] H2 H3 (or_introl eq_refl)) as (_ & Hcalls & _).
  exact Hcalls.
Defined.

(** * Further properties *)

Section StartupFailures.

Context `{Platform}.

Lemma value_of_neg a : a < 0 → value_of a = -1.
Proof. unfold value_of. intros. destruct (Z.ltb_spec a 0); [done|lia]. Qed.

Lemma status_of_neg a : a < 0 → status_of a = -1.
Proof. unfold status_of. intros. destruct (Z.ltb_spec a 0); [done|lia]. Qed.

Lemma close_opened (fd : Z) (X : gset Z) : ({[fd]} ∪ X) ∖ {[fd]} = X ∖ {[fd]}.
Proof.
  apply set_eq. intros x.
  rewrite !elem_of_difference, elem_of_union, elem_of_singleton. tauto.
Qed.

(** Unfolding the startup sequence up to its first stuck test. *)
Ltac start_startup :=
  unfold startup;
  unfold mbind, M_bind, gets, modify, when, mret, M_ret, perror;
  unfold open; cbn.

(** Finishing a failing branch: [exit_handler(0)] with [cleanupP] unset. *)
Ltac finish_failure :=
  rewrite exit_handler_run; unfold calls, out; rewrite cleanup_run;
  unfold restore_calls, restore_world, close_ret, close_world; cbn;
  rewrite ?decide_True by done; cbn.

Lemma startup_fails_tcgetpgrp w junk :
  1 ≤ answers w (clock w) → answers w (1 + clock w)%nat < 0 →
  let fd := answers w (clock w) in
  ∃ s', startup (boot w junk) =
    ([c_open "/dev/tty" O_RDONLY fd; c_tcgetpgrp fd (-1);
      c_perror ("Can't get pgrp" +:+ nl); c_close fd 0; c_exit 0],
     Stop (Exit 0) s') ∧
  cleanupP s' = 0 ∧ tty (os s') = tty w ∧ oldttystate s' = zero_termios ∧
  _global_fd s' = fd ∧ fds (os s') = fds w ∖ {[fd]}.
Proof.
  intros H0 H1. cbn in H1. cbn zeta.
  assert (Hin : answers w (clock w) ∈ {[answers w (clock w)]} ∪ fds w)
    by (apply elem_of_union_l; by apply elem_of_singleton).
  start_startup.
  rewrite (value_of_nonneg (answers w (clock w))) by lia.
  destruct (Z.ltb_spec (answers w (clock w)) 0); [lia|].
  destruct (Z.ltb_spec (answers w (clock w)) 1); [lia|].
  unfold tcgetpgrp; cbn. rewrite fd_answer_open by done. cbn.
  rewrite (value_of_neg (answers w (S (clock w)))) by done. cbn.
  finish_failure.
  eexists. split; [reflexivity|]. cbn. by rewrite close_opened.
Qed.

Lemma startup_fails_tcsetpgrp w junk :
  1 ≤ answers w (clock w) → 0 ≤ answers w (1 + clock w)%nat →
  answers w (2 + clock w)%nat < 0 →
  let fd := answers w (clock w) in
  let pgrp := answers w (1 + clock w)%nat in
  ∃ s', startup (boot w junk) =
    ([c_open "/dev/tty" O_RDONLY fd; c_tcgetpgrp fd pgrp;
      c_tcsetpgrp fd pgrp (-1);
      c_perror ("Can't set pgrp" +:+ nl); c_close fd 0; c_exit 0],
     Stop (Exit 0) s') ∧
  cleanupP s' = 0 ∧ tty (os s') = tty w ∧ oldttystate s' = zero_termios ∧
  _global_fd s' = fd ∧ fds (os s') = fds w ∖ {[fd]}.
Proof.
  intros H0 H1 H2. cbn in H1, H2. cbn zeta.
  assert (Hin : answers w (clock w) ∈ {[answers w (clock w)]} ∪ fds w)
    by (apply elem_of_union_l; by apply elem_of_singleton).
  start_startup.
  rewrite (value_of_nonneg (answers w (clock w))) by lia.
  destruct (Z.ltb_spec (answers w (clock w)) 0); [lia|].
  destruct (Z.ltb_spec (answers w (clock w)) 1); [lia|].
  unfold tcgetpgrp; cbn. rewrite fd_answer_open by done. cbn.
  rewrite (value_of_nonneg (answers w (S (clock w)))) by done.
  destruct (Z.ltb_spec (answers w (S (clock w))) 0); [lia|].
  unfold tcsetpgrp; cbn. rewrite fd_answer_open by done. cbn.
  rewrite (status_of_neg (answers w (S (S (clock w))))) by done. cbn.
  finish_failure.
  eexists. split; [reflexivity|]. cbn. by rewrite close_opened.
Qed.

Lemma startup_fails_tcgetattr w junk :
  1 ≤ answers w (clock w) → 0 ≤ answers w (1 + clock w)%nat →
  0 ≤ answers w (2 + clock w)%nat → answers w (3 + clock w)%nat < 0 →
  let fd := answers w (clock w) in
  let pgrp := answers w (1 + clock w)%nat in
  ∃ s', startup (boot w junk) =
    ([c_open "/dev/tty" O_RDONLY fd; c_tcgetpgrp fd pgrp;
      c_tcsetpgrp fd pgrp 0; c_tcgetattr fd (-1);
      c_perror "ioctl1 /dev/tty"; c_close fd 0; c_exit 0],
     Stop (Exit 0) s') ∧
  cleanupP s' = 0 ∧ tty (os s') = tty w ∧ oldttystate s' = zero_termios ∧
  _global_fd s' = fd ∧ fds (os s') = fds w ∖ {[fd]}.
Proof.
  intros H0 H1 H2 H3. cbn in H1, H2, H3. cbn zeta.
  assert (Hin : answers w (clock w) ∈ {[answers w (clock w)]} ∪ fds w)
    by (apply elem_of_union_l; by apply elem_of_singleton).
  start_startup.
  rewrite (value_of_nonneg (answers w (clock w))) by lia.
  destruct (Z.ltb_spec (answers w (clock w)) 0); [lia|].
  destruct (Z.ltb_spec (answers w (clock w)) 1); [lia|].
  unfold tcgetpgrp; cbn. rewrite fd_answer_open by done. cbn.
  rewrite (value_of_nonneg (answers w (S (clock w)))) by done.
  destruct (Z.ltb_spec (answers w (S (clock w))) 0); [lia|].
  unfold tcsetpgrp; cbn. rewrite fd_answer_open by done. cbn.
  rewrite (status_of_nonneg (answers w (S (S (clock w))))) by done. cbn.
  unfold tcgetattr; cbn. rewrite fd_answer_open by done. cbn.
  rewrite (status_of_neg (answers w (S (S (S (clock w)))))) by done. cbn.
  finish_failure.
  eexists. split; [reflexivity|]. cbn. by rewrite close_opened.
Qed.

Lemma startup_fails_tcsetattr w junk :
  1 ≤ answers w (clock w) → 0 ≤ answers w (1 + clock w)%nat →
  0 ≤ answers w (2 + clock w)%nat → 0 ≤ answers w (3 + clock w)%nat →
  answers w (4 + clock w)%nat < 0 →
  let fd := answers w (clock w) in
  let pgrp := answers w (1 + clock w)%nat in
  ∃ s', startup (boot w junk) =
    ([c_open "/dev/tty" O_RDONLY fd; c_tcgetpgrp fd pgrp;
      c_tcsetpgrp fd pgrp 0; c_tcgetattr fd 0;
      c_tcsetattr fd TCSANOW (raw_of (tty w)) (-1);
      c_perror "ioctl2 /dev/tty"; c_close fd 0; c_exit 0],
     Stop (Exit 0) s') ∧
  cleanupP s' = 0 ∧ tty (os s') = tty w ∧ oldttystate s' = tty w ∧
  ttystate s' = raw_of (tty w) ∧
  _global_fd s' = fd ∧ fds (os s') = fds w ∖ {[fd]}.
Proof.
  intros H0 H1 H2 H3 H4. cbn in H1, H2, H3, H4. cbn zeta.
  assert (Hin : answers w (clock w) ∈ {[answers w (clock w)]} ∪ fds w)
    by (apply elem_of_union_l; by apply elem_of_singleton).
  start_startup.
  rewrite (value_of_nonneg (answers w (clock w))) by lia.
  destruct (Z.ltb_spec (answers w (clock w)) 0); [lia|].
  destruct (Z.ltb_spec (answers w (clock w)) 1); [lia|].
  unfold tcgetpgrp; cbn. rewrite fd_answer_open by done. cbn.
  rewrite (value_of_nonneg (answers w (S (clock w)))) by done.
  destruct (Z.ltb_spec (answers w (S (clock w))) 0); [lia|].
  unfold tcsetpgrp; cbn. rewrite fd_answer_open by done. cbn.
  rewrite (status_of_nonneg (answers w (S (S (clock w))))) by done. cbn.
  unfold tcgetattr; cbn. rewrite fd_answer_open by done. cbn.
  rewrite (status_of_nonneg (answers w (S (S (S (clock w)))))) by done. cbn.
  unfold tcsetattr; cbn. rewrite fd_answer_open by done. cbn.
  rewrite (status_of_neg (answers w (S (S (S (S (clock w))))))) by done. cbn.
  finish_failure.
  eexists. split; [reflexivity|]. cbn. by rewrite close_opened.
Qed.

Lemma startup_fails_open w junk :
  answers w (clock w) < 1 →
  let r := value_of (answers w (clock w)) in
  ∃ cr s', startup (boot w junk) =
    ([c_open "/dev/tty" O_RDONLY r; c_perror "open /dev/tty";
      c_close r cr; c_exit 0],
     Stop (Exit 0) s') ∧
  cleanupP s' = 0 ∧ tty (os s') = tty w ∧ oldttystate s' = zero_termios ∧
  _global_fd s' = r ∧ fds (os s') = fds w ∖ {[r]}.
Proof.
  intros H0. cbn zeta. start_startup.
  assert (Hr : (value_of (answers w (clock w)) <? 1) = true).
  { unfold value_of. destruct (Z.ltb_spec (answers w (clock w)) 0); lia. }
  rewrite Hr. cbn.
  rewrite exit_handler_run. unfold calls, out. rewrite cleanup_run.
  unfold restore_calls, restore_world, close_ret, close_world. cbn.
  destruct (Z.ltb_spec (value_of (answers w (clock w))) 0); cbn.
  - case_decide; cbn; do 2 eexists; (split; [reflexivity|]); cbn; [done|].
    repeat split.
    symmetry. by apply difference_disjoint_L, disjoint_singleton_r.
  - assert (Hin : value_of (answers w (clock w))
                  ∈ {[value_of (answers w (clock w))]} ∪ fds w)
      by (apply elem_of_union_l; by apply elem_of_singleton).
    rewrite ?decide_True by done.
    cbn. do 2 eexists. split; [reflexivity|]. cbn.
    rewrite ?decide_True by done. cbn. by rewrite close_opened.
Qed.

(** The environment either lets startup through or fails it at one of the
    five calls. *)
Lemma env_cases w :
  env_ok w ∨
  answers w (clock w) < 1 ∨
  (1 ≤ answers w (clock w) ∧ answers w (1 + clock w)%nat < 0) ∨
  (1 ≤ answers w (clock w) ∧ 0 ≤ answers w (1 + clock w)%nat ∧
   answers w (2 + clock w)%nat < 0) ∨
  (1 ≤ answers w (clock w) ∧ 0 ≤ answers w (1 + clock w)%nat ∧
   0 ≤ answers w (2 + clock w)%nat ∧ answers w (3 + clock w)%nat < 0) ∨
  (1 ≤ answers w (clock w) ∧ 0 ≤ answers w (1 + clock w)%nat ∧
   0 ≤ answers w (2 + clock w)%nat ∧ 0 ≤ answers w (3 + clock w)%nat ∧
   answers w (4 + clock w)%nat < 0).
Proof. unfold env_ok. lia. Qed.

Lemma main_stops_with_startup input s tr e s' :
  startup s = (tr, Stop e s') → main input s = (tr, Stop e s').
Proof. intros E. unfold main. by rewrite (run_bind_stop _ _ _ _ _ _ E). Qed.

End StartupFailures.

Section StartupOrder.

Context `{Platform}.


End StartupOrder.


Section StartupFailureProperties.

Context `{Platform}.

(** X1.  When the environment fails any of the five startup calls, the run
    is short and clean: one diagnostic, one [close], exit status 0; no
    signal handler is installed and nothing is read; [cleanupP] is still 0,
    at most one [tcsetattr] was tried (the failing one) and the terminal's
    attributes are what they were. *)
Theorem failed_startup_is_clean (w : world) (junk : Z) (input : list tty_event) :
  ¬ env_ok w →
  ended (out (main input) (boot w junk)) = Some (Exit 0) ∧
  count is_perror (calls (main input) (boot w junk)) = 1%nat ∧
  count is_close (calls (main input) (boot w junk)) = 1%nat ∧
  count is_read (calls (main input) (boot w junk)) = 0%nat ∧
  count is_sigaction (calls (main input) (boot w junk)) = 0%nat ∧
  (count is_tcsetattr (calls (main input) (boot w junk)) ≤ 1)%nat ∧
  cleanupP (final (out (main input) (boot w junk))) = 0 ∧
  tty (os (final (out (main input) (boot w junk)))) = tty w.
Proof.
  intros Hno. unfold calls, out.
  destruct (env_cases w) as [Hok|[H0|[[H0 H1]|[(H0 & H1 & H2)|
    [(H0 & H1 & H2 & H3)|(H0 & H1 & H2 & H3 & H4)]]]]]; [done|..].
  - destruct (startup_fails_open w junk H0) as (cr & s' & E & F1 & F2 & _).
    rewrite (main_stops_with_startup _ _ _ _ _ E). cbn. auto 10.
  - destruct (startup_fails_tcgetpgrp w junk H0 H1) as (s' & E & F1 & F2 & _).
    rewrite (main_stops_with_startup _ _ _ _ _ E). cbn. auto 10.
  - destruct (startup_fails_tcsetpgrp w junk H0 H1 H2) as (s' & E & F1 & F2 & _).
    rewrite (main_stops_with_startup _ _ _ _ _ E). cbn. auto 10.
  - destruct (startup_fails_tcgetattr w junk H0 H1 H2 H3) as (s' & E & F1 & F2 & _).
    rewrite (main_stops_with_startup _ _ _ _ _ E). cbn. auto 10.
  - destruct (startup_fails_tcsetattr w junk H0 H1 H2 H3 H4)
      as (s' & E & F1 & F2 & _).
    rewrite (main_stops_with_startup _ _ _ _ _ E). cbn. auto 10.
Qed.

(** X2.  When [open] fails the program reports "open /dev/tty", calls
    [close(-1)], which fails, and exits with status 0 without any call on
    the terminal. *)
Theorem open_failure (w : world) (junk : Z) (input : list tty_event) :
  answers w (clock w) < 0 → -1 ∉ fds w →
  calls (main input) (boot w junk) =
    [c_open "/dev/tty" O_RDONLY (-1); c_perror "open /dev/tty";
     c_close (-1) (-1); c_exit 0] ∧
  ended (out (main input) (boot w junk)) = Some (Exit 0) ∧
  fds (os (final (out (main input) (boot w junk)))) = fds w.
Proof.
  intros H0 Hfd. unfold calls, out.
  assert (Hs : startup (boot w junk) =
    ([c_open "/dev/tty" O_RDONLY (-1); c_perror "open /dev/tty";
      c_close (-1) (-1); c_exit 0],
     Stop (Exit 0) (set__global_fd (-1) (set_os (tick (set_sigtab ∅ w)) (boot w junk))))).
  { unfold startup.
    unfold mbind, M_bind, gets, modify, when, mret, M_ret, perror, open. cbn.
    rewrite (value_of_neg _ H0). cbn.
    rewrite exit_handler_run. unfold calls, out. rewrite cleanup_run.
    unfold restore_calls, restore_world, close_ret, close_world. cbn.
    rewrite !decide_False by done. done. }
  rewrite (main_stops_with_startup _ _ _ _ _ Hs). done.
Qed.

(** X3.  When [tcgetpgrp] fails the program reports "Can't get pgrp",
    closes the descriptor it opened and exits with status 0: no [tcsetpgrp],
    no call on the terminal's attributes. *)
Theorem tcgetpgrp_failure (w : world) (junk : Z) (input : list tty_event) :
  1 ≤ answers w (clock w) → answers w (1 + clock w)%nat < 0 →
  calls (main input) (boot w junk) =
    [c_open "/dev/tty" O_RDONLY (answers w (clock w));
     c_tcgetpgrp (answers w (clock w)) (-1);
     c_perror ("Can't get pgrp" +:+ nl);
     c_close (answers w (clock w)) 0;
     c_exit 0] ∧
  ended (out (main input) (boot w junk)) = Some (Exit 0).
Proof.
  intros H0 H1. unfold calls, out.
  destruct (startup_fails_tcgetpgrp w junk H0 H1) as (s' & E & _).
  by rewrite (main_stops_with_startup _ _ _ _ _ E).
Qed.

(** X4.  When [tcsetpgrp] fails the program reports "Can't set pgrp",
    closes the descriptor and exits with status 0, before it has looked at
    the terminal's attributes. *)
Theorem tcsetpgrp_failure (w : world) (junk : Z) (input : list tty_event) :
  1 ≤ answers w (clock w) → 0 ≤ answers w (1 + clock w)%nat →
  answers w (2 + clock w)%nat < 0 →
  calls (main input) (boot w junk) =
    [c_open "/dev/tty" O_RDONLY (answers w (clock w));
     c_tcgetpgrp (answers w (clock w)) (answers w (1 + clock w)%nat);
     c_tcsetpgrp (answers w (clock w)) (answers w (1 + clock w)%nat) (-1);
     c_perror ("Can't set pgrp" +:+ nl);
     c_close (answers w (clock w)) 0;
     c_exit 0] ∧
  ended (out (main input) (boot w junk)) = Some (Exit 0).
Proof.
  intros H0 H1 H2. unfold calls, out.
  destruct (startup_fails_tcsetpgrp w junk H0 H1 H2) as (s' & E & _).
  by rewrite (main_stops_with_startup _ _ _ _ _ E).
Qed.

(** X5.  When [tcgetattr] fails the program reports "ioctl1 /dev/tty",
    closes the descriptor and exits with status 0; [oldttystate] was never
    written and no [tcsetattr] is made. *)
Theorem tcgetattr_failure (w : world) (junk : Z) (input : list tty_event) :
  1 ≤ answers w (clock w) → 0 ≤ answers w (1 + clock w)%nat →
  0 ≤ answers w (2 + clock w)%nat → answers w (3 + clock w)%nat < 0 →
  calls (main input) (boot w junk) =
    [c_open "/dev/tty" O_RDONLY (answers w (clock w));
     c_tcgetpgrp (answers w (clock w)) (answers w (1 + clock w)%nat);
     c_tcsetpgrp (answers w (clock w)) (answers w (1 + clock w)%nat) 0;
     c_tcgetattr (answers w (clock w)) (-1);
     c_perror "ioctl1 /dev/tty";
     c_close (answers w (clock w)) 0;
     c_exit 0] ∧
  ended (out (main input) (boot w junk)) = Some (Exit 0) ∧
  oldttystate (final (out (main input) (boot w junk)))
    = oldttystate (boot w junk).
Proof.
  intros H0 H1 H2 H3. unfold calls, out.
  destruct (startup_fails_tcgetattr w junk H0 H1 H2 H3) as (s' & E & _ & _ & F & _).
  by rewrite (main_stops_with_startup _ _ _ _ _ E).
Qed.

(** X6.  When the [tcsetattr] that applies the working mode fails, the
    program reports "ioctl2 /dev/tty", closes the descriptor and exits with
    status 0.  [cleanupP] was never set, so no restoring [tcsetattr]
    follows, and the terminal keeps the attributes it had. *)
Theorem raw_mode_failure (w : world) (junk : Z) (input : list tty_event) :
  1 ≤ answers w (clock w) → 0 ≤ answers w (1 + clock w)%nat →
  0 ≤ answers w (2 + clock w)%nat → 0 ≤ answers w (3 + clock w)%nat →
  answers w (4 + clock w)%nat < 0 →
  calls (main input) (boot w junk) =
    [c_open "/dev/tty" O_RDONLY (answers w (clock w));
     c_tcgetpgrp (answers w (clock w)) (answers w (1 + clock w)%nat);
     c_tcsetpgrp (answers w (clock w)) (answers w (1 + clock w)%nat) 0;
     c_tcgetattr (answers w (clock w)) 0;
     c_tcsetattr (answers w (clock w)) TCSANOW
       (ttystate (final (out (main input) (boot w junk)))) (-1);
     c_perror "ioctl2 /dev/tty";
     c_close (answers w (clock w)) 0;
     c_exit 0] ∧
  ended (out (main input) (boot w junk)) = Some (Exit 0) ∧
  cleanupP (final (out (main input) (boot w junk))) = 0 ∧
  oldttystate (final (out (main input) (boot w junk))) = tty w ∧
  tty (os (final (out (main input) (boot w junk)))) = tty w.
Proof.
  intros H0 H1 H2 H3 H4. unfold calls, out.
  destruct (startup_fails_tcsetattr w junk H0 H1 H2 H3 H4)
    as (s' & E & F1 & F2 & F3 & F4 & _).
  rewrite (main_stops_with_startup _ _ _ _ _ E). cbn. by rewrite F4.
Qed.

End StartupFailureProperties.

Section LoopProperties.

Context `{Platform}.

(** X7.  When the restoring [tcsetattr] fails, [exit_handler] reports
    "ioctl reset /dev/tty" and carries on: it still closes the descriptor
    and still exits with status 0, and the terminal keeps the attributes it
    had, the working mode. *)
Theorem restore_failure_not_escalated (s : state) (sig : Z) :
  cleanupP s ≠ 0 → _global_fd s ∈ fds (os s) →
  answers (os s) (clock (os s)) < 0 →
  calls (exit_handler (A := unit) sig) s =
    [c_printf ("Resettung terminal" +:+ nl);
     c_tcsetattr (_global_fd s) TCSANOW (oldttystate s) (-1);
     c_perror "ioctl reset /dev/tty";
     c_close (_global_fd s) 0]
    ++ (if sig =? 0 then []
        else [c_printf ("Exiting on signal " +:+ fmt_d sig +:+ nl)])
    ++ [c_exit 0] ∧
  ended (out (exit_handler (A := unit) sig) s) = Some (Exit 0) ∧
  tty (os (final (out (exit_handler (A := unit) sig) s))) = tty (os s) ∧
  _global_fd s ∉ fds (os (final (out (exit_handler (A := unit) sig) s))).
Proof.
  intros Harmed Hfd Hneg.
  assert (Ht : truthy (cleanupP s) = true).
  { unfold truthy. by destruct (Z.eqb_spec (cleanupP s) 0). }
  unfold calls, out. rewrite exit_handler_run. unfold calls, out.
  rewrite cleanup_run. cbn [fst snd final ended].
  unfold restore_calls, restore_world, close_ret, close_world.
  rewrite Ht, fd_answer_open, (status_of_neg _ Hneg) by done. cbn.
  rewrite !decide_True by done. cbn.
  repeat split.
  - unfold truthy. by destruct (sig =? 0).
  - rewrite elem_of_difference, elem_of_singleton. tauto.
Qed.

Lemma loop_body_harmless ev s :
  bound_as_main (os s) →
  if harmless ev
  then ∃ tr s', loop_body ev s = (tr, Ret tt s') ∧ guard s' = guard s
  else ended (out (loop_body ev) s) = Some (Exit 0).
Proof.
  intros Hb. unfold out. destruct ev as [sig|[e| |b]]; cbn [harmless].
  - rewrite loop_body_deliver, (Hb sig).
    destruct sig; eauto using exit_handler_ended.
  - rewrite loop_body_error. destruct (e =? EINTR); eauto.
    apply exit_handler_ended.
  - rewrite loop_body_eof. apply exit_handler_ended.
  - rewrite loop_body_byte. destruct (to_char b =? CEOF); cbn; eauto.
    apply exit_handler_ended.
Qed.

(** X9.  With the handlers bound as [main] binds them, the loop ends, and
    with exit status 0, exactly when the script holds an event that is not
    harmless: SIGHUP or SIGTERM, a read error other than [EINTR], a read of
    zero bytes, or the end-of-input character.  Under any script of harmless
    events, however long, the process is still waiting in [read]. *)
Theorem read_loop_ends_iff (input : list tty_event) (s : state) :
  bound_as_main (os s) →
  ended (out (read_loop input) s) =
    if forallb harmless input then Some Block else Some (Exit 0).
Proof.
  revert s. induction input as [|ev rest IH]; intros s Hb; [done|].
  unfold out. rewrite read_loop_cons. cbn [forallb].
  pose proof (loop_body_harmless ev s Hb) as L.
  destruct (harmless ev); cbn [andb].
  - destruct L as (tr & s' & -> & Hg). cbn [snd].
    apply IH. destruct (guard_eq s s' Hg) as (_ & _ & _ & ->). done.
  - unfold out in L. by destruct (loop_body ev s) as [tr [[] s'|e s']].
Qed.

Lemma echo_run b s :
  to_char b ≠ CEOF →
  loop_body (Data (rd_byte b)) s = (echo (_global_fd s) b, Ret tt (set_c0 (to_char b) s)).
Proof.
  intros Hb. rewrite loop_body_byte.
  by destruct (Z.eqb_spec (to_char b) CEOF).
Qed.

(** X10.  Bytes other than the end-of-input character are echoed one by
    one, in the order read: the calls of the loop are, for each byte, its
    [read] and its "You typed" line, and the process then waits for more
    with the guard state untouched. *)
Theorem bytes_echoed_in_order (bs : list Z) (s : state) :
  Forall (λ b, to_char b ≠ CEOF) bs →
  calls (read_loop (map (λ b, Data (rd_byte b)) bs)) s =
    concat (map (echo (_global_fd s)) bs) ∧
  ended (out (read_loop (map (λ b, Data (rd_byte b)) bs)) s) = Some Block ∧
  guard (final (out (read_loop (map (λ b, Data (rd_byte b)) bs)) s)) = guard s.
Proof.
  intros Hbs. revert s. induction Hbs as [|b bs Hb _ IH]; intros s; [done|].
  cbn [map concat]. unfold calls, out in *.
  rewrite (read_loop_again _ _ _ _ _ (echo_run b s Hb)). unfold calls, out.
  destruct (IH (set_c0 (to_char b) s)) as (E1 & E2 & E3).
  cbn [fst snd]. by rewrite E1, E2, E3.
Qed.

Lemma to_char_ceof b : 0 ≤ b < 256 → (to_char b =? CEOF) = (b =? 4).
Proof.
  intros Hb. unfold to_char. rewrite Z.mod_small by lia.
  change CEOF with 4.
  destruct char_is_signed, (Z.leb_spec 128 b); cbn [andb];
    destruct (Z.eqb_spec b 4), (Z.eqb_spec (b - 256) 4); lia || done.
Qed.

(** X11.  Whether plain [char] is signed or not, the only byte that ends
    the loop is 4, the end-of-input character: every other byte from 0 to
    255 is echoed and the loop goes round again. *)
Theorem only_ctrl_d_ends (b : Z) (s : state) :
  0 ≤ b < 256 →
  ended (out (loop_body (Data (rd_byte b))) s) =
    if b =? 4 then Some (Exit 0) else None.
Proof.
  intros Hb. unfold out. rewrite loop_body_byte, (to_char_ceof b Hb).
  destruct (b =? 4); [|done]. apply exit_handler_ended.
Qed.

End LoopProperties.

Section EchoFormat.

Context `{Platform}.

Lemma fmt_X_sign_extended b :
  128 ≤ b < 256 → fmt_X (b - 256) = "FFFFFF" +:+ fmt_X b.
Proof.
  intros Hb.
  assert (Hall : forallb
    (λ b, String.eqb (fmt_X (b - 256)) ("FFFFFF" +:+ fmt_X b))
    (seqZ 128 128) = true) by (vm_compute; reflexivity).
  rewrite forallb_forall in Hall. apply String.eqb_eq, Hall.
  apply list_elem_of_In, elem_of_seqZ. lia.
Qed.

(** X12.  The echo line shows the byte as a character and in upper-case
    hexadecimal.  Where plain [char] is signed, a byte from 128 to 255 is
    sign-extended on its way to [%X] and comes out with six leading F's;
    where it is unsigned, and for bytes below 128, the two digits of the
    byte come out. *)
Theorem echo_line_format (b : Z) (s : state) :
  0 ≤ b < 256 → b ≠ 4 →
  calls (loop_body (Data (rd_byte b))) s =
    [c_read (_global_fd s) (rd_byte b);
     c_printf ("You typed: '" +:+ fmt_c b +:+ "' (0x"
               +:+ (if char_is_signed && (128 <=? b) then "FFFFFF" else "")
               +:+ fmt_X b +:+ ")" +:+ nl)].
Proof.
  intros Hb H4. unfold calls. rewrite loop_body_byte, (to_char_ceof b Hb).
  destruct (Z.eqb_spec b 4) as [|_]; [done|]. cbn [fst].
  unfold to_char. rewrite (Z.mod_small b 256) by lia.
  destruct (char_is_signed && (128 <=? b)) eqn:E; [|done].
  apply andb_true_iff in E as [_ E]. apply Z.leb_le in E.
  rewrite fmt_X_sign_extended by lia.
  assert (fmt_c (b - 256) = fmt_c b) as ->; [|done].
  unfold fmt_c. do 3 f_equal.
  replace (b - 256) with (b + (-1) * 256) by lia. apply Z.mod_add. lia.
Qed.

(** X13.  [CTRL] takes a lower-case letter and its upper-case form to the
    same control character, the letter's place in the alphabet: a value
    from 1 to 26, which fits in a [cc_t]. *)
Theorem CTRL_of_letter (x : Z) :
  chr "a" ≤ x ≤ chr "z" →
  CTRL x = x - 96 ∧ CTRL (x - 32) = CTRL x ∧ 1 ≤ CTRL x ≤ 26.
Proof.
  change (chr "a") with 97. change (chr "z") with 122. intros Hx.
  unfold CTRL. change 31 with (Z.ones 5). rewrite !Z.land_ones by lia.
  assert (E1 : x mod 2 ^ 5 = x - 96).
  { symmetry. apply (Z.mod_unique_pos x (2 ^ 5) 3); lia. }
  assert (E2 : (x - 32) mod 2 ^ 5 = x - 96).
  { symmetry. apply (Z.mod_unique_pos (x - 32) (2 ^ 5) 2); lia. }
  rewrite E1, E2. lia.
Qed.

Lemma tcflag_clear_absent x m :
  0 ≤ x < 2 ^ 32 → Z.land x m = 0 → tcflag_clear x m = x.
Proof.
  intros Hx Hm. apply Z.bits_inj'. intros i _.
  rewrite tcflag_clear_bits by done.
  assert (Hi : Z.testbit (Z.land x m) i = false) by (rewrite Hm; apply Z.bits_0).
  rewrite Z.land_spec in Hi.
  by destruct (Z.testbit x i), (Z.testbit m i).
Qed.

(** X14.  On a terminal that already has the working mode (ICANON and ECHO
    clear, quit character ^G) the mode the program computes and applies is
    the one it saved: it changes nothing on the terminal. *)
Theorem already_raw_unchanged (w : world) (junk : Z) :
  env_ok w →
  0 ≤ c_lflag (tty w) < 2 ^ 32 →
  Z.land (c_lflag (tty w)) ICANON = 0 →
  Z.land (c_lflag (tty w)) ECHO = 0 →
  c_cc (tty w) !! VQUIT = Some (CTRL (chr "g")) →
  ttystate (final (out startup (boot w junk))) = tty w ∧
  tty (os (final (out startup (boot w junk)))) = tty w.
Proof.
  intros Hok Hl Hi He Hq. unfold out. rewrite (startup_run_ok w junk Hok).
  cbn. unfold raw_of.
  rewrite (tcflag_clear_absent _ ICANON Hl Hi).
  rewrite (tcflag_clear_absent _ ECHO Hl He).
  rewrite (list_insert_id _ _ _ Hq). by destruct (tty w).
Qed.

(** X15.  The two flag-clearing assignments of [main] can be made in either
    order, or as one assignment with the two masks or-ed together: the
    resulting [c_lflag] is the same, and is again a 32-bit value. *)
Theorem flag_clearing_order_free (x : Z) :
  0 ≤ x < 2 ^ 32 →
  tcflag_clear (tcflag_clear x ICANON) ECHO
    = tcflag_clear (tcflag_clear x ECHO) ICANON ∧
  tcflag_clear (tcflag_clear x ICANON) ECHO = tcflag_clear x (Z.lor ICANON ECHO) ∧
  0 ≤ tcflag_clear (tcflag_clear x ICANON) ECHO < 2 ^ 32.
Proof.
  intros Hx. split; [|split].
  - apply Z.bits_inj'. intros i _.
    rewrite !tcflag_clear_bits by (done || by apply tcflag_clear_range).
    by destruct (Z.testbit x i), (Z.testbit ICANON i), (Z.testbit ECHO i).
  - apply Z.bits_inj'. intros i _.
    rewrite !tcflag_clear_bits by (done || by apply tcflag_clear_range).
    rewrite Z.lor_spec.
    by destruct (Z.testbit x i), (Z.testbit ICANON i), (Z.testbit ECHO i).
  - apply tcflag_clear_range. by apply tcflag_clear_range.
Qed.

End EchoFormat.

Section Descriptors.

Context `{Platform}.

Lemma exit_handler_closes {A} sig s :
  let s' := final (out (exit_handler (A := A) sig) s) in
  _global_fd s' = _global_fd s ∧
  fds (os s') = fds (os s) ∖ {[_global_fd s]}.
Proof.
  cbn zeta. unfold out. rewrite exit_handler_run. cbn [snd final].
  unfold out. rewrite cleanup_run. cbn [snd final].
  split; [done|]. cbn.
  assert (Hr : fds (restore_world s) = fds (os s)).
  { unfold restore_world. destruct (truthy (cleanupP s)); [|done].
    by destruct (_ <? 0). }
  unfold close_world. case_decide as Hin; cbn; rewrite Hr in *; [done|].
  symmetry. by apply difference_disjoint_L, disjoint_singleton_r.
Qed.

Lemma read_loop_closes input s :
  ended (out (read_loop input) s) = Some (Exit 0) →
  _global_fd (final (out (read_loop input) s)) = _global_fd s ∧
  fds (os (final (out (read_loop input) s))) = fds (os s) ∖ {[_global_fd s]}.
Proof.
  unfold out. revert s.
  apply (read_loop_turns (λ s res,
    ended res.2 = Some (Exit 0) →
    _global_fd (final res.2) = _global_fd s ∧
    fds (os (final res.2)) = fds (os s) ∖ {[_global_fd s]})).
  - intros s. done.
  - intros s pre s' res _ Hg IH Hend.
    destruct (guard_eq s s' Hg) as (_ & _ & G3 & G4).
    rewrite G3, G4 in IH. by apply IH.
  - intros s pre sig s' _ Hg _.
    destruct (guard_eq s s' Hg) as (_ & _ & G3 & G4).
    rewrite <- G3, <- G4. apply (exit_handler_closes (A := unit)).
  - intros s sig _. done.
Qed.

(** X16.  On every way out (failed startup, end of input, read error,
    signal) the descriptor held in [_global_fd] is closed when the process
    exits, and it is the only one the program has closed: every other
    descriptor is open exactly if it was when the process started. *)
Theorem descriptors_after_exit (w : world) (junk : Z) (input : list tty_event) :
  ended (out (main input) (boot w junk)) = Some (Exit 0) →
  (_global_fd (final (out (main input) (boot w junk)))
     ∉ fds (os (final (out (main input) (boot w junk))))) ∧
  fds (os (final (out (main input) (boot w junk))))
    = fds w ∖ {[_global_fd (final (out (main input) (boot w junk)))]}.
Proof.
  intros Hend.
  assert (Hnot : ∀ (X : gset Z) x, x ∉ X ∖ {[x]}).
  { intros X x. rewrite elem_of_difference, elem_of_singleton. tauto. }
  destruct (env_cases w) as [Hok|[H0|[[H0 H1]|[(H0 & H1 & H2)|
    [(H0 & H1 & H2 & H3)|(H0 & H1 & H2 & H3 & H4)]]]]].
  - destruct (main_run_ok w junk input Hok) as (_ & E2 & E3).
    rewrite E2 in Hend. rewrite E3.
    destruct (read_loop_closes input (ready w junk) Hend) as [C1 C2].
    rewrite C1, C2. cbn. rewrite close_opened. split; [apply Hnot|done].
  - destruct (startup_fails_open w junk H0) as (cr & s' & E & _ & _ & _ & F4 & F5).
    unfold out. rewrite (main_stops_with_startup _ _ _ _ _ E). cbn.
    rewrite F4, F5. split; [apply Hnot|done].
  - destruct (startup_fails_tcgetpgrp w junk H0 H1) as (s' & E & _ & _ & _ & F4 & F5).
    unfold out. rewrite (main_stops_with_startup _ _ _ _ _ E). cbn.
    rewrite F4, F5. split; [apply Hnot|done].
  - destruct (startup_fails_tcsetpgrp w junk H0 H1 H2)
      as (s' & E & _ & _ & _ & F4 & F5).
    unfold out. rewrite (main_stops_with_startup _ _ _ _ _ E). cbn.
    rewrite F4, F5. split; [apply Hnot|done].
  - destruct (startup_fails_tcgetattr w junk H0 H1 H2 H3)
      as (s' & E & _ & _ & _ & F4 & F5).
    unfold out. rewrite (main_stops_with_startup _ _ _ _ _ E). cbn.
    rewrite F4, F5. split; [apply Hnot|done].
  - destruct (startup_fails_tcsetattr w junk H0 H1 H2 H3 H4)
      as (s' & E & _ & _ & _ & _ & F4 & F5).
    unfold out. rewrite (main_stops_with_startup _ _ _ _ _ E). cbn.
    rewrite F4, F5. split; [apply Hnot|done].
Qed.

(** X17.  The [sigaction] block binds the four signals whatever was bound
    before, touches the disposition of no other signal, and leaves the
    program's variables, the descriptors and the terminal as they were. *)
Theorem handlers_bound_over_any_table (s : state) (n : Z) :
  n ≠ signo SIGHUP → n ≠ signo SIGINT → n ≠ signo SIGQUIT → n ≠ signo SIGTERM →
  let s' := final (out install_handlers s) in
  bound_as_main (os s') ∧
  sigtab (os s') !! n = sigtab (os s) !! n ∧
  ended (out install_handlers s) = None ∧
  (ttystate s', oldttystate s', cleanupP s', _global_fd s')
    = (ttystate s, oldttystate s, cleanupP s, _global_fd s) ∧
  fds (os s') = fds (os s) ∧ tty (os s') = tty (os s).
Proof.
  intros N1 N2 N3 N4. cbn zeta. unfold out. rewrite install_handlers_run.
  cbn [snd final ended]. split; [|split].
  - intros sig. unfold set_os, set_sigtab. cbn [os sigtab].
    apply installed_lookup.
  - unfold set_os, set_sigtab, installed. cbn [os sigtab].
    by rewrite !lookup_insert_ne.
  - done.
Qed.

End Descriptors.

Section CallCounts.

Context `{Platform}.

Lemma read_loop_armed_counts input s :
  cleanupP s ≠ 0 → all_bound (os s) →
  let n := if ended (out (read_loop input) s) is Some (Exit _) then 1%nat else 0%nat in
  count is_tcsetattr (calls (read_loop input) s) = n ∧
  count is_close (calls (read_loop input) s) = n ∧
  count is_sigaction (calls (read_loop input) s) = 0%nat.
Proof.
  cbn zeta. unfold calls, out. revert s.
  apply (read_loop_turns (λ s res,
    cleanupP s ≠ 0 → all_bound (os s) →
    count is_tcsetattr res.1
      = (if ended res.2 is Some (Exit _) then 1%nat else 0%nat) ∧
    count is_close res.1
      = (if ended res.2 is Some (Exit _) then 1%nat else 0%nat) ∧
    count is_sigaction res.1 = 0%nat)).
  - intros s _ _. done.
  - intros s pre s' res Hq Hg IH Hc Hb.
    destruct (guard_eq s s' Hg) as (_ & G2 & _ & G4).
    rewrite G2, G4 in IH. destruct (IH Hc Hb) as (I1 & I2 & I3).
    cbn [fst snd].
    rewrite !count_app, !(count_quiet _ pre), I1, I2, I3
      by (done || by intros []). done.
  - intros s pre sig s' Hq Hg Hc Hb.
    destruct (guard_eq s s' Hg) as (_ & G2 & _ & _). rewrite <- G2 in Hc.
    destruct (exit_handler_counts (A := unit) sig s') as [E1 E2].
    assert (Ht : truthy (cleanupP s') = true).
    { unfold truthy. by destruct (Z.eqb_spec (cleanupP s') 0). }
    rewrite Ht in E1. cbn [fst snd].
    rewrite exit_handler_ended.
    rewrite !count_app, !(count_quiet _ pre), E1, E2 by (done || by intros []).
    repeat split.
    unfold calls. rewrite exit_handler_run. unfold calls. rewrite cleanup_run.
    cbn [fst]. rewrite !count_app. unfold restore_calls. rewrite Ht.
    destruct (_ <? 0), (truthy sig); done.
  - intros s sig E _ Hb. destruct (Hb sig E).
Qed.

(** X18.  In a run whose startup succeeds and in which neither SIGHUP nor
    SIGTERM is delivered, the program installs its four handlers once,
    applies the working mode with one [tcsetattr], and makes no other
    [tcsetattr] and no [close] for as long as it runs; when it exits, at end
    of input or on a read error, it has made exactly one more [tcsetattr],
    the restoring one, and exactly one [close]. *)
Theorem calls_of_a_session (w : world) (junk : Z) (input : list tty_event) :
  env_ok w →
  Forall (λ ev, ev ≠ Deliver SIGHUP ∧ ev ≠ Deliver SIGTERM) input →
  let n := if ended (out (main input) (boot w junk)) is Some (Exit _)
           then 1%nat else 0%nat in
  count is_sigaction (calls (main input) (boot w junk)) = 4%nat ∧
  count is_tcsetattr (calls (main input) (boot w junk)) = (1 + n)%nat ∧
  count is_close (calls (main input) (boot w junk)) = n.
Proof.
  intros Hok _. cbn zeta.
  destruct (main_run_ok w junk input Hok) as (E1 & E2 & _).
  rewrite E1, E2, !count_app.
  destruct (read_loop_armed_counts input (ready w junk)) as (C1 & C2 & C3);
    [done|apply (installed_all_bound (armed w junk))|].
  rewrite C1, C2, C3. done.
Qed.

(** X19.  An exit caused by SIGHUP or SIGTERM, with no other signal
    arriving after it, is announced: after the calls of [cleanup] the
    handler prints "Exiting on signal" with the signal's number, 1 or 15,
    and exits with status 0.  An exit at end of input, again with no signal
    arriving after it, goes through the same [cleanup] and prints no such
    line.  Whatever data the terminal still holds is not read. *)
Theorem signal_exit_announced (s : state) (sig : signal) (later : list read_result) :
  sig = SIGHUP ∨ sig = SIGTERM →
  sigtab (os s) !! signo sig = Some h_exit_handler →
  calls (read_loop (Deliver sig :: map Data later)) s =
    calls cleanup s ++
    [c_printf ("Exiting on signal "
               +:+ match sig with SIGHUP => "1" | _ => "15" end +:+ nl);
     c_exit 0] ∧
  calls (read_loop (Data rd_eof :: map Data later)) s =
    [c_read (_global_fd s) rd_eof;
     c_printf ("Exiting on stdin EOF (should happen only in cannon mode" +:+ nl)]
    ++ calls cleanup s ++ [c_exit 0].
Proof.
  intros Hsig Hb. split.
  - unfold calls at 1. rewrite (read_loop_terminate sig _ s Hb).
    rewrite exit_handler_run. cbn [fst].
    destruct Hsig as [-> | ->]; reflexivity.
  - pose proof (loop_body_eof s) as L. unfold calls, out in L.
    rewrite exit_handler_run in L. cbn [fst snd] in L.
    unfold calls at 1. by rewrite (read_loop_stop _ _ _ _ _ _ L).
Qed.

End CallCounts.

(** * Witnesses for the further properties *)

(** X1, witness: no controlling terminal. *)
Lemma failed_startup_is_clean_witness :
  ¬ env_ok (login_world no_terminal) ∧
  ended (out (main (H := linux) []) (boot (H := linux) (login_world no_terminal) 0))
    = Some (Exit 0).
Proof.
  assert (Hno : ¬ env_ok (login_world no_terminal)).
  { intros [Hopen _]. by vm_compute in Hopen. }
  split; [exact Hno|].
  destruct (failed_startup_is_clean (H := linux) (login_world no_terminal) 0 [] Hno)
    as [Hend _].
  exact Hend.
Defined.

(** X2, witness: no controlling terminal. *)
Lemma open_failure_witness :
  answers (login_world no_terminal) (clock (login_world no_terminal)) < 0 ∧
  (-1 ∉ fds (login_world no_terminal)) ∧
  calls (main (H := linux) []) (boot (H := linux) (login_world no_terminal) 0) =
    [c_open "/dev/tty" (O_RDONLY (Platform := linux)) (-1);
     c_perror "open /dev/tty"; c_close (-1) (-1); c_exit 0].
Proof.
  assert (H0 : answers (login_world no_terminal)
                 (clock (login_world no_terminal)) < 0) by (by vm_compute).
  assert (H1 : -1 ∉ fds (login_world no_terminal)).
  { cbn. rewrite !elem_of_union, !elem_of_singleton. lia. }
  split; [exact H0|]. split; [exact H1|].
  destruct (open_failure (H := linux) (login_world no_terminal) 0 [] H0 H1)
    as [Hcalls _].
  exact Hcalls.
Defined.

(** X3, witness: [open] succeeds, [tcgetpgrp] fails. *)
Lemma tcgetpgrp_failure_witness :
  1 ≤ answers (login_world (fail_from 1)) (clock (login_world (fail_from 1))) ∧
  answers (login_world (fail_from 1))
    (1 + clock (login_world (fail_from 1)))%nat < 0 ∧
  ended (out (main (H := linux) [])
           (boot (H := linux) (login_world (fail_from 1)) 0)) = Some (Exit 0).
Proof.
  assert (H0 : 1 ≤ answers (login_world (fail_from 1))
                 (clock (login_world (fail_from 1)))) by (by vm_compute).
  assert (H1 : answers (login_world (fail_from 1))
                 (1 + clock (login_world (fail_from 1)))%nat < 0) by (by vm_compute).
  split; [exact H0|]. split; [exact H1|].
  destruct (tcgetpgrp_failure (H := linux) (login_world (fail_from 1)) 0 [] H0 H1)
    as [_ Hend].
  exact Hend.
Defined.

(** X4, witness: [tcsetpgrp] is the first call to fail. *)
Lemma tcsetpgrp_failure_witness :
  1 ≤ answers (login_world (fail_from 2)) (clock (login_world (fail_from 2))) ∧
  0 ≤ answers (login_world (fail_from 2))
        (1 + clock (login_world (fail_from 2)))%nat ∧
  answers (login_world (fail_from 2))
    (2 + clock (login_world (fail_from 2)))%nat < 0 ∧
  ended (out (main (H := linux) [])
           (boot (H := linux) (login_world (fail_from 2)) 0)) = Some (Exit 0).
Proof.
  assert (H0 : 1 ≤ answers (login_world (fail_from 2))
                 (clock (login_world (fail_from 2)))) by (by vm_compute).
  assert (H1 : 0 ≤ answers (login_world (fail_from 2))
                 (1 + clock (login_world (fail_from 2)))%nat) by (by vm_compute).
  assert (H2 : answers (login_world (fail_from 2))
                 (2 + clock (login_world (fail_from 2)))%nat < 0) by (by vm_compute).
  split; [exact H0|]. split; [exact H1|]. split; [exact H2|].
  destruct (tcsetpgrp_failure (H := linux) (login_world (fail_from 2)) 0 []
              H0 H1 H2) as [_ Hend].
  exact Hend.
Defined.

(** X5, witness: [tcgetattr] is the first call to fail. *)
Lemma tcgetattr_failure_witness :
  1 ≤ answers (login_world (fail_from 3)) (clock (login_world (fail_from 3))) ∧
  0 ≤ answers (login_world (fail_from 3))
        (1 + clock (login_world (fail_from 3)))%nat ∧
  0 ≤ answers (login_world (fail_from 3))
        (2 + clock (login_world (fail_from 3)))%nat ∧
  answers (login_world (fail_from 3))
    (3 + clock (login_world (fail_from 3)))%nat < 0 ∧
  ended (out (main (H := linux) [])
           (boot (H := linux) (login_world (fail_from 3)) 0)) = Some (Exit 0).
Proof.
  assert (H0 : 1 ≤ answers (login_world (fail_from 3))
                 (clock (login_world (fail_from 3)))) by (by vm_compute).
  assert (H1 : 0 ≤ answers (login_world (fail_from 3))
                 (1 + clock (login_world (fail_from 3)))%nat) by (by vm_compute).
  assert (H2 : 0 ≤ answers (login_world (fail_from 3))
                 (2 + clock (login_world (fail_from 3)))%nat) by (by vm_compute).
  assert (H3 : answers (login_world (fail_from 3))
                 (3 + clock (login_world (fail_from 3)))%nat < 0) by (by vm_compute).
  split; [exact H0|]. split; [exact H1|]. split; [exact H2|]. split; [exact H3|].
  destruct (tcgetattr_failure (H := linux) (login_world (fail_from 3)) 0 []
              H0 H1 H2 H3) as (_ & Hend & _).
  exact Hend.
Defined.

(** X6, witness: the [tcsetattr] of the working mode is the first call to
    fail. *)
Lemma raw_mode_failure_witness :
  1 ≤ answers (login_world (fail_from 4)) (clock (login_world (fail_from 4))) ∧
  0 ≤ answers (login_world (fail_from 4))
        (1 + clock (login_world (fail_from 4)))%nat ∧
  0 ≤ answers (login_world (fail_from 4))
        (2 + clock (login_world (fail_from 4)))%nat ∧
  0 ≤ answers (login_world (fail_from 4))
        (3 + clock (login_world (fail_from 4)))%nat ∧
  answers (login_world (fail_from 4))
    (4 + clock (login_world (fail_from 4)))%nat < 0 ∧
  ended (out (main (H := linux) [])
           (boot (H := linux) (login_world (fail_from 4)) 0)) = Some (Exit 0).
Proof.
  assert (H0 : 1 ≤ answers (login_world (fail_from 4))
                 (clock (login_world (fail_from 4)))) by (by vm_compute).
  assert (H1 : 0 ≤ answers (login_world (fail_from 4))
                 (1 + clock (login_world (fail_from 4)))%nat) by (by vm_compute).
  assert (H2 : 0 ≤ answers (login_world (fail_from 4))
                 (2 + clock (login_world (fail_from 4)))%nat) by (by vm_compute).
  assert (H3 : 0 ≤ answers (login_world (fail_from 4))
                 (3 + clock (login_world (fail_from 4)))%nat) by (by vm_compute).
  assert (H4 : answers (login_world (fail_from 4))
                 (4 + clock (login_world (fail_from 4)))%nat < 0) by (by vm_compute).
  split; [exact H0|]. split; [exact H1|]. split; [exact H2|]. split; [exact H3|].
  split; [exact H4|].
  destruct (raw_mode_failure (H := linux) (login_world (fail_from 4)) 0 []
              H0 H1 H2 H3 H4) as (_ & Hend & _).
  exact Hend.
Defined.

(** X7, witness: startup went through, the restoring [tcsetattr] fails. *)
Lemma restore_failure_not_escalated_witness :
  let s := ready (H := linux) (login_world (fail_from 5)) 0 in
  cleanupP s ≠ 0 ∧ _global_fd s ∈ fds (os s) ∧
  answers (os s) (clock (os s)) < 0 ∧
  ended (out (exit_handler (H := linux) (A := unit) 15) s) = Some (Exit 0).
Proof.
  assert (H0 : cleanupP (ready (H := linux) (login_world (fail_from 5)) 0) ≠ 0)
    by done.
  assert (H1 : _global_fd (ready (H := linux) (login_world (fail_from 5)) 0)
               ∈ fds (os (ready (H := linux) (login_world (fail_from 5)) 0))).
  { cbn. apply elem_of_union_l. by apply elem_of_singleton. }
  assert (H2 : answers (os (ready (H := linux) (login_world (fail_from 5)) 0))
                 (clock (os (ready (H := linux) (login_world (fail_from 5)) 0))) < 0)
    by (by vm_compute).
  split; [exact H0|]. split; [exact H1|]. split; [exact H2|].
  destruct (restore_failure_not_escalated (H := linux) _ 15 H0 H1 H2)
    as (_ & Hend & _).
  exact Hend.
Defined.

Lemma ready_bound_as_main (w : world) (junk : Z) :
  bound_as_main (os (ready (H := linux) w junk)).
Proof. intros sig. unfold ready, set_os, set_sigtab. cbn [os sigtab]. apply installed_lookup. Qed.

(** X9, witness: SIGINT, the byte 'a', then SIGTERM, which ends the run. *)
Lemma read_loop_ends_iff_witness :
  let s := ready (H := linux) (login_world all_succeed) 0 in
  bound_as_main (os s) ∧
  ended (out (read_loop (H := linux)
                [Deliver SIGINT; Data (rd_byte 97); Deliver SIGTERM]) s)
    = if forallb (harmless (H := linux))
           [Deliver SIGINT; Data (rd_byte 97); Deliver SIGTERM]
      then Some Block else Some (Exit 0).
Proof.
  split; [apply ready_bound_as_main|].
  exact (read_loop_ends_iff (H := linux)
    [Deliver SIGINT; Data (rd_byte 97); Deliver SIGTERM] _
    (ready_bound_as_main (login_world all_succeed) 0)).
Defined.

(** X10, witness: the bytes 'h' and 'i'. *)
Lemma bytes_echoed_in_order_witness :
  let s := ready (H := linux) (login_world all_succeed) 0 in
  Forall (λ b, to_char (H := linux) b ≠ CEOF) [104; 105] ∧
  ended (out (read_loop (H := linux) (map (λ b, Data (rd_byte b)) [104; 105])) s)
    = Some Block.
Proof.
  assert (H0 : Forall (λ b, to_char (H := linux) b ≠ CEOF) [104; 105])
    by (repeat constructor; by vm_compute).
  split; [exact H0|].
  destruct (bytes_echoed_in_order (H := linux) [104; 105]
              (ready (H := linux) (login_world all_succeed) 0) H0) as (_ & Hend & _).
  exact Hend.
Defined.

(** X11, witness: the byte 4. *)
Lemma only_ctrl_d_ends_witness :
  0 ≤ 4 < 256 ∧
  ended (out (loop_body (H := linux) (Data (rd_byte 4)))
           (ready (H := linux) (login_world all_succeed) 0))
    = if 4 =? 4 then Some (Exit 0) else None.
Proof.
  assert (H0 : 0 ≤ 4 < 256) by lia.
  split; [exact H0|].
  exact (only_ctrl_d_ends (H := linux) 4 _ H0).
Defined.

(** X12, witness: the byte 200 where [char] is signed. *)
Lemma echo_line_format_witness :
  0 ≤ 200 < 256 ∧ 200 ≠ 4 ∧
  calls (loop_body (H := linux) (Data (rd_byte 200)))
    (ready (H := linux) (login_world all_succeed) 0) =
    [c_read (_global_fd (ready (H := linux) (login_world all_succeed) 0)) (rd_byte 200);
     c_printf ("You typed: '" +:+ fmt_c 200 +:+ "' (0x"
               +:+ (if char_is_signed (Platform := linux) && (128 <=? 200)
                    then "FFFFFF" else "")
               +:+ fmt_X 200 +:+ ")" +:+ nl)].
Proof.
  assert (H0 : 0 ≤ 200 < 256) by lia.
  assert (H1 : 200 ≠ 4) by lia.
  split; [exact H0|]. split; [exact H1|].
  exact (echo_line_format (H := linux) 200 _ H0 H1).
Defined.

(** X13, witness: the letter g. *)
Lemma CTRL_of_letter_witness :
  chr "a" ≤ chr "g" ≤ chr "z" ∧ CTRL (chr "g") = chr "g" - 96.
Proof.
  assert (H0 : chr "a" ≤ chr "g" ≤ chr "z") by (by vm_compute).
  split; [exact H0|].
  destruct (CTRL_of_letter (chr "g") H0) as [Hg _].
  exact Hg.
Defined.

(** X15, witness: the local flags of a cooked terminal. *)
Lemma flag_clearing_order_free_witness :
  0 ≤ c_lflag cooked < 2 ^ 32 ∧
  tcflag_clear (tcflag_clear (c_lflag cooked) (ICANON (Platform := linux)))
    (ECHO (Platform := linux))
  = tcflag_clear (tcflag_clear (c_lflag cooked) (ECHO (Platform := linux)))
      (ICANON (Platform := linux)).
Proof.
  assert (H0 : 0 ≤ c_lflag cooked < 2 ^ 32) by (cbn; lia).
  split; [exact H0|].
  destruct (flag_clearing_order_free (H := linux) (c_lflag cooked) H0) as [Hc _].
  exact Hc.
Defined.

(** X16, witness: a session ended by end of input. *)
Lemma descriptors_after_exit_witness :
  ended (out (main (H := linux) [Data rd_eof])
           (boot (H := linux) (login_world all_succeed) 0)) = Some (Exit 0) ∧
  fds (os (final (out (main (H := linux) [Data rd_eof])
                    (boot (H := linux) (login_world all_succeed) 0))))
    = fds (login_world all_succeed)
      ∖ {[_global_fd (final (out (main (H := linux) [Data rd_eof])
                            (boot (H := linux) (login_world all_succeed) 0)))]}.
Proof.
  assert (H0 : ended (out (main (H := linux) [Data rd_eof])
                        (boot (H := linux) (login_world all_succeed) 0))
               = Some (Exit 0)) by (by vm_compute).
  split; [exact H0|].
  destruct (descriptors_after_exit (H := linux) (login_world all_succeed) 0
              [Data rd_eof] H0) as [_ Hfds].
  exact Hfds.
Defined.

(** X17, witness: signal 17 at process start. *)
Lemma handlers_bound_over_any_table_witness :
  17 ≠ signo SIGHUP ∧ 17 ≠ signo SIGINT ∧ 17 ≠ signo SIGQUIT ∧ 17 ≠ signo SIGTERM ∧
  bound_as_main
    (os (final (out (install_handlers)
                  (boot (H := linux) (login_world all_succeed) 0)))).
Proof.
  assert (N1 : 17 ≠ signo SIGHUP) by done.
  assert (N2 : 17 ≠ signo SIGINT) by done.
  assert (N3 : 17 ≠ signo SIGQUIT) by done.
  assert (N4 : 17 ≠ signo SIGTERM) by done.
  split; [exact N1|]. split; [exact N2|]. split; [exact N3|]. split; [exact N4|].
  destruct (handlers_bound_over_any_table
              (boot (H := linux) (login_world all_succeed) 0) 17 N1 N2 N3 N4)
    as [Hb _].
  exact Hb.
Defined.

(** X18, witness: a session that is still waiting after one byte. *)
Lemma calls_of_a_session_witness :
  env_ok (login_world all_succeed) ∧
  Forall (λ ev, ev ≠ Deliver SIGHUP ∧ ev ≠ Deliver SIGTERM) [Data (rd_byte 97)] ∧
  count is_sigaction
    (calls (main (H := linux) [Data (rd_byte 97)])
       (boot (H := linux) (login_world all_succeed) 0)) = 4%nat.
Proof.
  assert (Hok : env_ok (login_world all_succeed)) by (unfold env_ok; cbn; lia).
  assert (Hsig : Forall (λ ev, ev ≠ Deliver SIGHUP ∧ ev ≠ Deliver SIGTERM)
                   [Data (rd_byte 97)]) by (by repeat constructor).
  split; [exact Hok|]. split; [exact Hsig|].
  destruct (calls_of_a_session (H := linux) (login_world all_succeed) 0
              [Data (rd_byte 97)] Hok Hsig) as [Hn _].
  exact Hn.
Defined.

(** X19, witness: SIGHUP at the first [read]. *)
Lemma signal_exit_announced_witness :
  let s := ready (H := linux) (login_world all_succeed) 0 in
  (SIGHUP = SIGHUP ∨ SIGHUP = SIGTERM) ∧
  sigtab (os s) !! signo SIGHUP = Some h_exit_handler ∧
  calls (read_loop (H := linux) (Deliver SIGHUP :: map Data [])) s =
    calls (cleanup (H := linux)) s ++
    [c_printf ("Exiting on signal " +:+ "1" +:+ nl); c_exit 0].
Proof.
  assert (H1 : sigtab (os (ready (H := linux) (login_world all_succeed) 0))
               !! signo SIGHUP = Some h_exit_handler) by done.
  split; [by left|]. split; [exact H1|].
  destruct (signal_exit_announced (H := linux) _ SIGHUP [] (or_introl eq_refl) H1)
    as [Hc _].
  exact Hc.
Defined.

(** X14, witness: a terminal left in the working mode by an earlier run. *)
Lemma already_raw_unchanged_witness :
  let w := set_tty (raw_of (H := linux) cooked) (login_world all_succeed) in
  env_ok w ∧
  0 ≤ c_lflag (tty w) < 2 ^ 32 ∧
  Z.land (c_lflag (tty w)) (ICANON (Platform := linux)) = 0 ∧
  Z.land (c_lflag (tty w)) (ECHO (Platform := linux)) = 0 ∧
  c_cc (tty w) !! VQUIT (Platform := linux) = Some (CTRL (chr "g")) ∧
  ttystate (final (out (startup (H := linux)) (boot (H := linux) w 0))) = tty w.
Proof.
  cbn zeta.
  set (w := set_tty (raw_of (H := linux) cooked) (login_world all_succeed)).
  assert (Hok : env_ok w) by (unfold env_ok; cbn; lia).
  assert (Hl : 0 ≤ c_lflag (tty w) < 2 ^ 32) by (by vm_compute).
  assert (Hi : Z.land (c_lflag (tty w)) (ICANON (Platform := linux)) = 0)
    by (by vm_compute).
  assert (He : Z.land (c_lflag (tty w)) (ECHO (Platform := linux)) = 0)
    by (by vm_compute).
  assert (Hq : c_cc (tty w) !! VQUIT (Platform := linux) = Some (CTRL (chr "g")))
    by (by vm_compute).
  split; [exact Hok|]. split; [exact Hl|]. split; [exact Hi|].
  split; [exact He|]. split; [exact Hq|].
  destruct (already_raw_unchanged (H := linux) w 0 Hok Hl Hi He Hq) as [Ht _].
  exact Ht.
Defined.
